(** * PlannerApp: the time-grid scheduling core of [src/PlannerApp.tsx]

    A shallow embedding of the helpers ([clamp], [snapTo]), of the block
    store operations of [PlannerApp] ([addTemplateToDay], [moveBlock],
    [changeBlock], [totalsByGoal]) and of the gesture path of [TimeGrid]
    ([positionToStartMin], [handleDragEnd], the display sort).

    Number model.  Minutes are integers ([Z]); pixel coordinates are exact
    rationals ([Q]).  A JavaScript [NaN] result is written [None]. *)

From Stdlib Require Import ZArith QArith Qround Qminmax Lia Lqa List Permutation Sorted.
Close Scope Q_scope.
From stdpp Require Import gmap strings list fin_maps pretty.
Open Scope Z_scope.

(** ** Types *)

Inductive GoalLevel := YEAR | QUARTER | MONTH.

Record Goal := {
  goal_id : string;
  goal_title : string;
  color : string;
  targetWeeklyHours : Z;
  endImageUrl : option string;
  level : GoalLevel;
  parentId : option string
}.

Record BlockTemplate := {
  tpl_id : string;
  tpl_title : string;
  defaultDurationMin : Z;
  defaultGoalId : option string;
  icon : option string
}.

Record ScheduledBlock := {
  id : string;
  dateISO : string;
  startMinOfDay : Z;
  durationMin : Z;
  templateId : option string;
  goalId : option string;
  note : option string
}.

Record AppState := {
  goals : list Goal;
  templates : list BlockTemplate;
  blocks : list ScheduledBlock
}.

(** [Partial<ScheduledBlock>]: every key may be absent ([None]); an optional
    field that is present may still hold [undefined] (inner [None]). *)
Record PartialScheduledBlock := {
  p_id : option string;
  p_dateISO : option string;
  p_startMinOfDay : option Z;
  p_durationMin : option Z;
  p_templateId : option (option string);
  p_goalId : option (option string);
  p_note : option (option string)
}.

(** ** Helpers *)

Definition DAY_START_MIN : Z := 8 * 60.
Definition DAY_END_MIN : Z := 24 * 60.
Definition SNAP_MIN : Z := 30.
Definition GRID_MINUTES : Z := DAY_END_MIN - DAY_START_MIN.
Definition SLOT_COUNT : Z := GRID_MINUTES / SNAP_MIN.

(** [clamp] is used at both number sorts: on minutes and on pixels. *)
Definition clamp (n min max : Z) : Z := Z.max min (Z.min max n).
Definition clampQ (n min max : Q) : Q := Qmax min (Qmin max n).

(** [Math.round]: nearest integer, a tie going towards plus infinity. *)
Definition Math_round (x : Q) : Z := Qfloor (x + (1 # 2))%Q.

(** [snapTo(mins, snap)].  The only call site passes [SNAP_MIN]; a zero
    [snap] (NaN in the source) is outside the model. *)
Definition snapTo (mins snap : Z) : Z :=
  Math_round (inject_Z mins / inject_Z snap)%Q * snap.

(** JavaScript [%] truncates towards zero. *)
Definition js_rem (a b : Z) : Z := Z.rem a b.

(** ** The block store of [PlannerApp] *)

(** React state: an updater returns a value and the next state. *)
Definition Update (A : Type) : Type := AppState -> A * AppState.

Definition setState (f : AppState -> AppState) : Update unit :=
  fun s => (tt, f s).

Definition with_blocks (s : AppState) (bs : list ScheduledBlock) : AppState :=
  {| goals := goals s; templates := templates s; blocks := bs |}.

Definition with_startMinOfDay (b : ScheduledBlock) (newStart : Z) : ScheduledBlock :=
  {| id := id b; dateISO := dateISO b; startMinOfDay := newStart;
     durationMin := durationMin b; templateId := templateId b;
     goalId := goalId b; note := note b |}.

(** [{ ...b, ...next }] *)
Definition spread (b : ScheduledBlock) (next : PartialScheduledBlock) : ScheduledBlock :=
  {| id := default (id b) (p_id next);
     dateISO := default (dateISO b) (p_dateISO next);
     startMinOfDay := default (startMinOfDay b) (p_startMinOfDay next);
     durationMin := default (durationMin b) (p_durationMin next);
     templateId := default (templateId b) (p_templateId next);
     goalId := default (goalId b) (p_goalId next);
     note := default (note b) (p_note next) |}.

(** The object literal [{ durationMin: nextDuration }] built by [onResize]. *)
Definition durationPatch (nextDuration : Z) : PartialScheduledBlock :=
  {| p_id := None; p_dateISO := None; p_startMinOfDay := None;
     p_durationMin := Some nextDuration; p_templateId := None;
     p_goalId := None; p_note := None |}.

(** [addTemplateToDay]; the random identifier is an argument. *)
Definition addTemplateToDay (newId dateISO0 : string) (tpl : BlockTemplate) : Update unit :=
  let newBlock :=
    {| id := newId; dateISO := dateISO0; startMinOfDay := DAY_START_MIN;
       durationMin := defaultDurationMin tpl; templateId := Some (tpl_title tpl);
       goalId := defaultGoalId tpl; note := Some (tpl_title tpl) |} in
  setState (fun s => with_blocks s (blocks s ++ [newBlock])).

Definition moveBlock (id0 : string) (newStart : Z) : Update unit :=
  let newStart := snapTo newStart SNAP_MIN in
  setState (fun s => with_blocks s
    ((fun b => if String.eqb (id b) id0 then with_startMinOfDay b newStart else b)
       <$> blocks s)).

Definition changeBlock (id0 : string) (next : PartialScheduledBlock) : Update unit :=
  setState (fun s => with_blocks s
    ((fun b => if String.eqb (id b) id0 then spread b next else b) <$> blocks s)).

(** [onResize] of a rendered block [b]. *)
Definition onResize (b : ScheduledBlock) (nextDuration : Z) : Update unit :=
  changeBlock (id b) (durationPatch nextDuration).

(** [b.goalId || 'none']: an absent and an empty goal id are both falsy. *)
Definition goalKey (b : ScheduledBlock) : string :=
  match goalId b with
  | Some g => if String.eqb g EmptyString then "none" else g
  | None => "none"
  end.

(** The [Map] is only ever read through [get], so it is a finite map. *)
Definition totalsByGoal (dayBlocks : list ScheduledBlock) : gmap string Z :=
  fold_left
    (fun (map : gmap string Z) b =>
       let g := goalKey b in
       <[g := default 0 (map !! g) + durationMin b]> map)
    dayBlocks ∅.

(** ** The gesture path of [TimeGrid] *)

(** The part of [getBoundingClientRect()] that is read. *)
Record DOMRect := { top : Q; height : Q }.

(** [positionToStartMin]; [grid] is [gridRef.current].  With a grid of
    height zero the source divides zero by zero: [None] stands for NaN.
    Pixel arithmetic is exact here, while a subtraction of doubles can round
    onto a slot edge; what is proved below does not depend on where exactly
    an edge falls. *)
Definition positionToStartMin (grid : option DOMRect) (clientX clientY : Q) : option Z :=
  match grid with
  | None => Some DAY_START_MIN
  | Some rect =>
      let y := clampQ (clientY - top rect)%Q 0%Q (height rect) in
      let slotH := (height rect / inject_Z SLOT_COUNT)%Q in
      if Qeq_bool slotH 0 then None
      else
        let slotIndex := Qfloor (y / slotH)%Q in
        let minsFromStart := slotIndex * SNAP_MIN in
        Some (clamp (DAY_START_MIN + minsFromStart) DAY_START_MIN (DAY_END_MIN - SNAP_MIN))
  end.

(** The activator event: [clientY] when it is a number, else the [clientY]
    of each entry of [touches] when that key exists. *)
Record ActivatorEvent := {
  ev_clientY : option Q;
  ev_touches : option (list Q)
}.

(** The movement of the pointer since the drag started. *)
Record Coordinates := {
  coord_x : Q;
  coord_y : Q
}.

(** The drag-end event: the dragged block, the movement since the start of
    the drag, and the event that started the drag (the pointer going down). *)
Record DragEndEvent := {
  active_id : string;
  delta : Coordinates;
  activatorEvent : ActivatorEvent
}.

(** Best-effort pointer extraction of [handleDragEnd]. *)
Definition pointerClientY (evt : ActivatorEvent) : Q :=
  match ev_clientY evt with
  | Some y => y
  | None =>
      match ev_touches evt with
      | Some (t0 :: _) => t0
      | _ => 0%Q
      end
  end.

(** State seen by [TimeGrid]: the application state behind its callbacks and
    its own [draggingId]. *)
Record GridState := {
  app : AppState;
  draggingId : option string
}.

Definition handleDragStart (e : DragEndEvent) (g : GridState) : GridState :=
  {| app := app g; draggingId := Some (active_id e) |}.

(** [handleDragEnd], with [onBlockMove] bound to [moveBlock] as [PlannerApp]
    does.  The handler takes [delta] out of the event and never reads it: the
    y-coordinate comes from [activatorEvent].  [None]: on a grid of height
    zero the handler still runs to its end, but the minute it passes on is
    NaN, which an integer start cannot hold. *)
Definition handleDragEnd (grid : option DOMRect) (e : DragEndEvent) (g : GridState)
  : option GridState :=
  match grid with
  | None => Some {| app := app g; draggingId := None |}
  | Some _ =>
      match positionToStartMin grid 0%Q (pointerClientY (activatorEvent e)) with
      | Some newStart =>
          Some {| app := snd (moveBlock (active_id e) newStart (app g));
                  draggingId := None |}
      | None => None
      end
  end.

(** Where a minute of the day is drawn: the block's [top] is
    [(startMinOfDay - DAY_START_MIN) / GRID_MINUTES] of the grid height. *)
Definition minuteToClientY (rect : DOMRect) (minute : Z) : Q :=
  (top rect
   + (inject_Z (minute - DAY_START_MIN) / inject_Z GRID_MINUTES) * height rect)%Q.

(** ** Arrays as shared objects *)

(** An array variable holds a reference; [sort] reorders the referenced array
    in place, [filter] and the spread [[...a]] allocate a new one. *)
Definition Arr (A : Type) : Type :=
  gmap nat (list ScheduledBlock) -> option (A * gmap nat (list ScheduledBlock)).

Definition newArray (a : list ScheduledBlock) : Arr nat :=
  fun h => let r := fresh (dom h) in Some (r, <[r := a]> h).

Definition Array_filter (p : ScheduledBlock -> bool) (r : nat) : Arr nat :=
  fun h => match h !! r with
           | Some a => newArray (List.filter p a) h
           | None => None
           end.

Definition Array_spread (r : nat) : Arr nat :=
  fun h => match h !! r with
           | Some a => newArray a h
           | None => None
           end.

(** [Array.prototype.sort] is stable; with a consistent comparator the result
    is the stable ordering, computed here by insertion from the right. *)
Fixpoint sortInsert (cmp : ScheduledBlock -> ScheduledBlock -> Z)
    (x : ScheduledBlock) (l : list ScheduledBlock) : list ScheduledBlock :=
  match l with
  | [] => [x]
  | y :: l' => if cmp x y <=? 0 then x :: l else y :: sortInsert cmp x l'
  end.

Fixpoint stableSort (cmp : ScheduledBlock -> ScheduledBlock -> Z)
    (l : list ScheduledBlock) : list ScheduledBlock :=
  match l with
  | [] => []
  | x :: l' => sortInsert cmp x (stableSort cmp l')
  end.

Definition Array_sort (cmp : ScheduledBlock -> ScheduledBlock -> Z) (r : nat) : Arr nat :=
  fun h => match h !! r with
           | Some a => Some (r, <[r := stableSort cmp a]> h)
           | None => None
           end.

(** [state.blocks.filter(b => b.dateISO === dateISO)] *)
Definition dayBlocks (dateISO0 : string) (stateBlocks : nat) : Arr nat :=
  Array_filter (fun b => String.eqb (dateISO b) dateISO0) stateBlocks.

(** [(a, b) => a.startMinOfDay - b.startMinOfDay] *)
Definition byStart (a b : ScheduledBlock) : Z := startMinOfDay a - startMinOfDay b.

(** [[...blocks].sort(...)] *)
Definition sorted (blocksRef : nat) : Arr nat :=
  fun h => match Array_spread blocksRef h with
           | Some (copy, h') => Array_sort byStart copy h'
           | None => None
           end.

(** The blocks of a date as they are displayed: [dayBlocks], then [sorted]. *)
Definition displayedBlocks (dateISO0 : string) (stateBlocks : nat) : Arr nat :=
  fun h => match dayBlocks dateISO0 stateBlocks h with
           | Some (day, h') => sorted day h'
           | None => None
           end.

(** The array a computation returns, read after it has run. *)
Definition arrayOf (c : Arr nat) (h : gmap nat (list ScheduledBlock))
  : option (list ScheduledBlock) :=
  match c h with
  | Some (r, h') => h' !! r
  | None => None
  end.

(** Whether some stored block carries the identifier. *)
Definition hasBlock (id0 : string) (s : AppState) : bool :=
  existsb (fun b => String.eqb (id b) id0) (blocks s).

(** ** The specification's wording, for comparison *)

(** The specification's [snap]: round half up, then clamp the result to
    [[dayStartMinute, dayEndMinute - snapUnitMinutes]]. *)
Definition snap_spec (minute : Z) : Z :=
  clamp (SNAP_MIN * ((2 * minute + SNAP_MIN) / (2 * SNAP_MIN)))
        DAY_START_MIN (DAY_END_MIN - SNAP_MIN).

(** The specification's [setDuration] value. *)
Definition setDuration_spec (duration : Z) : Z :=
  Z.max SNAP_MIN (snapTo duration SNAP_MIN).

(** The specification's query order: start ascending, ties by id. *)
Definition spec_before (a b : ScheduledBlock) : bool :=
  (startMinOfDay a <? startMinOfDay b)
  || ((startMinOfDay a =? startMinOfDay b) && String.leb (id a) (id b)).

Fixpoint spec_ordered (l : list ScheduledBlock) : bool :=
  match l with
  | a :: (b :: _) as l' => spec_before a b && spec_ordered l'
  | _ => true
  end.

(** The summed duration of a sequence of blocks. *)
Definition totalDuration (l : list ScheduledBlock) : Z :=
  foldr (fun b acc => durationMin b + acc) 0 l.

(** What a totals map holds for the blocks selected for one key: nothing
    when there is none, else their summed duration. *)
Definition bucket (selected : list ScheduledBlock) : option Z :=
  match selected with
  | [] => None
  | _ => Some (totalDuration selected)
  end.

(** Ascending start, as the display sort orders. *)
Definition startLe (a b : ScheduledBlock) : Prop := startMinOfDay a <= startMinOfDay b.

(** The block invariant of the specification. *)
Definition snapAligned (b : ScheduledBlock) : Prop :=
  js_rem (startMinOfDay b) SNAP_MIN = 0
  /\ js_rem (durationMin b) SNAP_MIN = 0
  /\ SNAP_MIN <= durationMin b.

(** ** Sample data *)

Definition bt_breakfast : BlockTemplate :=
  {| tpl_id := "bt-breakfast"; tpl_title := "Breakfast"; defaultDurationMin := 20;
     defaultGoalId := None; icon := Some "🍳" |}.

Definition sampleBlock (i : string) (start dur : Z) (g : option string) : ScheduledBlock :=
  {| id := i; dateISO := "2024-01-01"; startMinOfDay := start; durationMin := dur;
     templateId := None; goalId := g; note := None |}.

Definition sampleState (bs : list ScheduledBlock) : AppState :=
  {| goals := []; templates := [bt_breakfast]; blocks := bs |}.

Definition sampleGrid : DOMRect := {| top := 0%Q; height := 960%Q |}.

(** The end of a drag that a pointer started at [clientY] and moved by
    [delta0]. *)
Definition pointerEvent (id0 : string) (delta0 : Coordinates) (clientY : Q)
  : DragEndEvent :=
  {| active_id := id0;
     delta := delta0;
     activatorEvent := {| ev_clientY := Some clientY; ev_touches := None |} |}.

(** Where the pointer is when the drag ends. *)
Definition finalClientY (e : DragEndEvent) : Q :=
  (pointerClientY (activatorEvent e) + coord_y (delta e))%Q.

(** ** Labels, colours, totals bar and persistence *)

(** [String.prototype.repeat] *)
Fixpoint repeatString (count : nat) (s : string) : string :=
  match count with
  | O => EmptyString
  | S count' => s +:+ repeatString count' s
  end.

(** [String.prototype.padStart]: nothing is added when the string is long
    enough or the filler is empty; else the repeated filler, cut to the
    missing length, goes in front.  Lengths count characters of ASCII text. *)
Definition padStart (targetLength : nat) (padString s : string) : string :=
  let fillLen := (targetLength - String.length s)%nat in
  if (fillLen =? 0)%nat || String.eqb padString EmptyString then s
  else String.substring 0 fillLen (repeatString fillLen padString) +:+ s.

(** [minutesToLabel]; [toString] of an integer is its decimal text. *)
Definition minutesToLabel (min : Z) : string :=
  let h := Qfloor (inject_Z min / inject_Z 60)%Q in
  let m := js_rem min 60 in
  let h12 := js_rem (h + 11) 12 + 1 in
  let ampm := if h <? 12 then "AM" else "PM" in
  pretty h12 +:+ ":" +:+ padStart 2 "0" (pretty m) +:+ " " +:+ ampm.

(** [Object.fromEntries(goals.map(g => [g.id, g]))]: a later entry replaces
    an earlier one with the same key. *)
Definition goalMap (goals0 : list Goal) : gmap string Goal :=
  fold_left (fun (map : gmap string Goal) g => <[goal_id g := g]> map) goals0 ∅.

(** The colour class [TimeGrid] gives a block:
    [goal = b.goalId ? goalMap[b.goalId] : undefined], then
    [goal?.color || 'bg-zinc-400']. *)
Definition blockColor (goals0 : list Goal) (b : ScheduledBlock) : string :=
  let goal :=
    match goalId b with
    | Some g => if String.eqb g EmptyString then None else goalMap goals0 !! g
    | None => None
    end in
  match goal with
  | Some g => if String.eqb (color g) EmptyString then "bg-zinc-400" else color g
  | None => "bg-zinc-400"
  end.

(** The totals bar: [totalsByGoal.get(g.id) || 0] for each goal, and the
    entry of 'none', which is rendered only when it is not zero. *)
Definition goalMinutes (totals : gmap string Z) (g : Goal) : Z :=
  default 0 (totals !! goal_id g).

Definition unassignedMinutes (totals : gmap string Z) : Z :=
  default 0 (totals !! "none").

(** All the minutes the totals bar shows, added up. *)
Definition displayedMinutes (goals0 : list Goal) (totals : gmap string Z) : Z :=
  foldr (fun g acc => goalMinutes totals g + acc) 0 goals0 + unassignedMinutes totals.

(** The blocks of one date, as [dayBlocks] selects them. *)
Definition blocksOfDate (dateISO0 : string) (bs : list ScheduledBlock) : list ScheduledBlock :=
  List.filter (fun b => String.eqb (dateISO b) dateISO0) bs.

Definition yearGoal (i title col : string) (hours : Z) : Goal :=
  {| goal_id := i; goal_title := title; color := col; targetWeeklyHours := hours;
     endImageUrl := None; level := YEAR; parentId := None |}.

Definition initialGoals : list Goal :=
  [ yearGoal "g-identity" "Identity App" "bg-indigo-600" 20;
    yearGoal "g-fitness" "Fitness" "bg-emerald-600" 6;
    yearGoal "g-relationships" "Relationships" "bg-rose-600" 4;
    yearGoal "g-admin" "Admin" "bg-amber-600" 3 ].

Definition initialTemplates : list BlockTemplate :=
  [ {| tpl_id := "bt-deep"; tpl_title := "Deep Work"; defaultDurationMin := 90;
       defaultGoalId := Some "g-identity"; icon := Some "🧠" |};
    {| tpl_id := "bt-ex"; tpl_title := "Exercise"; defaultDurationMin := 60;
       defaultGoalId := Some "g-fitness"; icon := Some "🏃" |};
    bt_breakfast;
    {| tpl_id := "bt-lunch"; tpl_title := "Lunch"; defaultDurationMin := 30;
       defaultGoalId := None; icon := Some "🥗" |};
    {| tpl_id := "bt-dinner"; tpl_title := "Dinner"; defaultDurationMin := 30;
       defaultGoalId := None; icon := Some "🍽️" |};
    {| tpl_id := "bt-admin"; tpl_title := "Admin"; defaultDurationMin := 30;
       defaultGoalId := Some "g-admin"; icon := Some "🗂️" |} ].

Definition LS_KEY : string := "planner_v1_state".

(** The state [loadState] falls back to. *)
Definition defaultState : AppState :=
  {| goals := initialGoals; templates := initialTemplates; blocks := [] |}.

(** [loadState].  [localStorage] is a map from keys to text; [JSON_parse] is
    the platform's parser, [None] when it throws, its value taken at the
    declared type without validation as the source does.  An empty stored
    text is falsy and is not parsed. *)
Definition loadState (JSON_parse : string -> option AppState)
    (localStorage : gmap string string) : AppState :=
  match localStorage !! LS_KEY with
  | Some raw =>
      if String.eqb raw EmptyString then defaultState
      else match JSON_parse raw with
           | Some s => s
           | None => defaultState
           end
  | None => defaultState
  end.

(** [saveState] *)
Definition saveState (JSON_stringify : AppState -> string) (s : AppState)
    (localStorage : gmap string string) : gmap string string :=
  <[LS_KEY := JSON_stringify s]> localStorage.

(** * Properties *)

(** Decides [snapAligned] for the blocks of a literal list. *)
Ltac aligned_by_computation :=
  repeat (apply Forall_cons; split); try apply Forall_nil;
  repeat split; vm_compute; congruence.

(** ** [snapTo] *)

Section SnapTo.

(** [Math.round(mins / 30) * 30] in integer arithmetic. *)
Lemma snapTo_div (m : Z) : snapTo m SNAP_MIN = 30 * ((m + 15) / 30).
Proof.
  unfold snapTo, Math_round, SNAP_MIN, Qdiv, Qinv, Qmult, Qplus, Qfloor, inject_Z.
  cbn [Qnum Qden].
  change (Z.pos (1 * 30)) with 30. change (Z.pos (1 * 30 * 2)) with (30 * 2).
  replace (m * 1 * 2 + 1 * 30) with ((m + 15) * 2) by lia.
  rewrite Z.div_mul_cancel_r by lia. lia.
Qed.

Lemma snapTo_multiple (m : Z) : snapTo m SNAP_MIN mod 30 = 0.
Proof.
  rewrite snapTo_div, Z.mul_comm. apply Z.mod_mul. lia.
Qed.

Lemma snapTo_rem (m : Z) : js_rem (snapTo m SNAP_MIN) SNAP_MIN = 0.
Proof.
  unfold js_rem. rewrite snapTo_div. unfold SNAP_MIN.
  rewrite Z.mul_comm. apply Z.rem_mul. lia.
Qed.

(** The result is within half a snap unit, the upper half going up. *)
Lemma snapTo_window (m : Z) :
  snapTo m SNAP_MIN - 15 <= m < snapTo m SNAP_MIN + 15.
Proof.
  rewrite snapTo_div.
  pose proof (Z.div_mod (m + 15) 30 ltac:(lia)).
  pose proof (Z.mod_pos_bound (m + 15) 30 ltac:(lia)). lia.
Qed.

Lemma snapTo_fixed (k : Z) : snapTo (30 * k) SNAP_MIN = 30 * k.
Proof.
  rewrite snapTo_div. f_equal.
  replace (30 * k + 15) with (15 + k * 30) by lia.
  rewrite Z.div_add by lia. reflexivity.
Qed.

Lemma snapTo_idempotent (m : Z) :
  snapTo (snapTo m SNAP_MIN) SNAP_MIN = snapTo m SNAP_MIN.
Proof.
  rewrite (snapTo_div m). apply snapTo_fixed.
Qed.

Lemma snapTo_nearest (m k : Z) :
  Z.abs (m - snapTo m SNAP_MIN) <= Z.abs (m - 30 * k).
Proof.
  pose proof (snapTo_window m) as Hw.
  rewrite snapTo_div in *.
  set (q := (m + 15) / 30) in *. lia.
Qed.

End SnapTo.

(** C2 as stated fails: minute 100 snaps to 90, below the day window, and
    [moveBlock] stores it unclamped. *)
Lemma snapTo_not_clamped :
  snapTo 100 SNAP_MIN = 90
  /\ ~ (DAY_START_MIN <= snapTo 100 SNAP_MIN <= DAY_END_MIN - SNAP_MIN)
  /\ snap_spec 100 = 480
  /\ startMinOfDay <$>
       blocks (snd (moveBlock "b1" 100 (sampleState [sampleBlock "b1" 480 90 (Some "g1")])))
     = [90].
Proof.
  repeat split; try reflexivity.
  intros [H _]. vm_compute in H. apply H. reflexivity.
Qed.

(** C2 (amended): for every integer minute, [snapTo minute 30] is the multiple
    of 30 nearest to the minute, a tie going up; nothing is clamped, so the
    result lies in [[480, 1410]] exactly when [465 <= minute < 1425], and the
    specification's [snap] is the clamp of it. *)
Theorem snapTo_round_half_up_unclamped (minute : Z) :
  snapTo minute SNAP_MIN mod SNAP_MIN = 0
  /\ snapTo minute SNAP_MIN - 15 <= minute < snapTo minute SNAP_MIN + 15
  /\ (forall k : Z, Z.abs (minute - snapTo minute SNAP_MIN) <= Z.abs (minute - SNAP_MIN * k))
  /\ (DAY_START_MIN <= snapTo minute SNAP_MIN <= DAY_END_MIN - SNAP_MIN
      <-> 465 <= minute < 1425)
  /\ snap_spec minute = clamp (snapTo minute SNAP_MIN) DAY_START_MIN (DAY_END_MIN - SNAP_MIN).
Proof.
  split; [apply snapTo_multiple|].
  split; [apply snapTo_window|].
  split; [apply snapTo_nearest|].
  split.
  - pose proof (snapTo_window minute) as Hw.
    pose proof (snapTo_multiple minute) as Hm.
    apply Z.mod_divide in Hm; [|lia]. destruct Hm as [q Hq].
    unfold DAY_START_MIN, DAY_END_MIN, SNAP_MIN in *. lia.
  - unfold snap_spec. f_equal. rewrite snapTo_div. unfold SNAP_MIN.
    f_equal. replace (2 * minute + 30) with ((minute + 15) * 2) by lia.
    change (2 * 30) with (30 * 2). apply Z.div_mul_cancel_r; lia.
Qed.

Lemma snapTo_round_half_up_unclamped_witness :
  snapTo 500 SNAP_MIN mod SNAP_MIN = 0
  /\ snapTo 500 SNAP_MIN - 15 <= 500 < snapTo 500 SNAP_MIN + 15.
Proof.
  destruct (snapTo_round_half_up_unclamped 500) as (H1 & H2 & _).
  split; [exact H1 | exact H2].
Defined.

(** C9: for every minute of the day window, snapping is idempotent. *)
Theorem snapTo_idempotent_in_day (minute : Z) :
  DAY_START_MIN <= minute < DAY_END_MIN ->
  snapTo (snapTo minute SNAP_MIN) SNAP_MIN = snapTo minute SNAP_MIN.
Proof.
  intros _. apply snapTo_idempotent.
Qed.

Lemma snapTo_idempotent_in_day_witness :
  DAY_START_MIN <= 500 < DAY_END_MIN
  /\ snapTo (snapTo 500 SNAP_MIN) SNAP_MIN = snapTo 500 SNAP_MIN.
Proof.
  assert (H : DAY_START_MIN <= 500 < DAY_END_MIN)
    by (unfold DAY_START_MIN, DAY_END_MIN; lia).
  split; [exact H | exact (snapTo_idempotent_in_day 500 H)].
Defined.

(** ** The block store: [moveBlock], [changeBlock] *)

Section BlockStore.

Implicit Types (s : AppState) (b : ScheduledBlock) (k : nat).

Lemma with_blocks_same s : with_blocks s (blocks s) = s.
Proof. destruct s; reflexivity. Qed.

Lemma hasBlock_false s id0 :
  hasBlock id0 s = false <-> forall b, b ∈ blocks s -> id b <> id0.
Proof.
  unfold hasBlock. split.
  - intros H b Hb Heq.
    assert (existsb (fun b => String.eqb (id b) id0) (blocks s) = true) as Ht.
    { apply existsb_exists. exists b. split; [by apply list_elem_of_In|].
      by apply String.eqb_eq. }
    congruence.
  - intros H. apply not_true_is_false. intros Ht.
    apply existsb_exists in Ht as (b & Hb & Heq).
    apply String.eqb_eq in Heq. apply list_elem_of_In in Hb. by apply (H b).
Qed.

Lemma hasBlock_true s id0 :
  hasBlock id0 s = true <-> exists b, b ∈ blocks s /\ id b = id0.
Proof.
  unfold hasBlock. rewrite existsb_exists. split.
  - intros (b & Hb & Heq). exists b. split; [by apply list_elem_of_In|].
    by apply String.eqb_eq.
  - intros (b & Hb & Heq). exists b. split; [by apply list_elem_of_In|].
    by apply String.eqb_eq.
Qed.

(** A map that touches no element returns the list. *)
Lemma fmap_untouched (f : ScheduledBlock -> ScheduledBlock) (l : list ScheduledBlock) :
  (forall b, b ∈ l -> f b = b) -> f <$> l = l.
Proof.
  induction l as [|x l IH]; intros H; [reflexivity|].
  rewrite fmap_cons, H by (left). f_equal. apply IH. intros b Hb. apply H. by right.
Qed.

Lemma moveBlock_lookup s id0 newStart k :
  blocks (snd (moveBlock id0 newStart s)) !! k =
  (fun b => if String.eqb (id b) id0
            then with_startMinOfDay b (snapTo newStart SNAP_MIN) else b)
    <$> blocks s !! k.
Proof. cbn. apply list_lookup_fmap. Qed.

Lemma changeBlock_lookup s id0 next k :
  blocks (snd (changeBlock id0 next s)) !! k =
  (fun b => if String.eqb (id b) id0 then spread b next else b) <$> blocks s !! k.
Proof. cbn. apply list_lookup_fmap. Qed.

Lemma moveBlock_absent s id0 newStart :
  hasBlock id0 s = false -> moveBlock id0 newStart s = (tt, s).
Proof.
  intros H. unfold moveBlock, setState. f_equal.
  rewrite fmap_untouched; [apply with_blocks_same|].
  intros b Hb. rewrite hasBlock_false in H.
  destruct (String.eqb_spec (id b) id0) as [Heq|]; [|reflexivity].
  by destruct (H b Hb).
Qed.

Lemma snapAligned_moved b newStart :
  snapAligned b -> snapAligned (with_startMinOfDay b (snapTo newStart SNAP_MIN)).
Proof.
  intros (_ & Hd & Hm). split; [apply snapTo_rem | by split].
Qed.

Lemma snapAligned_resized b d :
  snapAligned b ->
  snapAligned (spread b (durationPatch d)) <-> js_rem d SNAP_MIN = 0 /\ SNAP_MIN <= d.
Proof.
  intros (Hs & _ & _). unfold snapAligned; cbn. tauto.
Qed.

End BlockStore.

Section BlockStoreClaims.

Implicit Types (s : AppState) (b : ScheduledBlock) (k : nat).

(** C1 as stated fails: a resize to 20 minutes is stored as 20, and a
    Breakfast block (20 minutes by its template) keeps 20 when moved. *)
Lemma resize_breaks_alignment :
  let b1 := sampleBlock "b1" 480 60 (Some "g1") in
  Forall snapAligned (blocks (sampleState [b1]))
  /\ durationMin <$> blocks (snd (onResize b1 20 (sampleState [b1]))) = [20]
  /\ ~ Forall snapAligned (blocks (snd (onResize b1 20 (sampleState [b1]))))
  /\ ~ Forall snapAligned
        (blocks (snd (moveBlock "b-x" 500
           (snd (addTemplateToDay "b-x" "2024-01-01" bt_breakfast (sampleState [])))))).
Proof.
  cbn zeta. split; [|split; [reflexivity|split]].
  - aligned_by_computation.
  - intros H. apply Forall_cons in H as [(_ & H & _) _]. discriminate H.
  - intros H. apply Forall_cons in H as [(_ & H & _) _]. discriminate H.
Qed.

(** C1 (amended): after [moveBlock] every block with the id has the start
    [snapTo minute 30], a multiple of 30, whatever the store held before, and
    every id and duration is as it was; so in a store whose blocks all have
    a start and a duration that are multiples of 30 and a duration of at
    least 30, [moveBlock] keeps this for every block.  [changeBlock] with
    [{durationMin: d}] stores [d] as given in the targeted block, so it
    keeps this exactly when no block has the id or [d] is a multiple of 30
    and at least 30. *)
Theorem alignment_after_move_and_resize s id0 (minute d : Z) :
  Forall (fun b' => id b' = id0 ->
            startMinOfDay b' = snapTo minute SNAP_MIN
            /\ js_rem (startMinOfDay b') SNAP_MIN = 0)
    (blocks (snd (moveBlock id0 minute s)))
  /\ id <$> blocks (snd (moveBlock id0 minute s)) = id <$> blocks s
  /\ durationMin <$> blocks (snd (moveBlock id0 minute s)) = durationMin <$> blocks s
  /\ (Forall snapAligned (blocks s) ->
      Forall snapAligned (blocks (snd (moveBlock id0 minute s))))
  /\ Forall (fun b' => id b' = id0 -> durationMin b' = d)
       (blocks (snd (changeBlock id0 (durationPatch d) s)))
  /\ (Forall snapAligned (blocks s) ->
      (Forall snapAligned (blocks (snd (changeBlock id0 (durationPatch d) s)))
       <-> hasBlock id0 s = false \/ (js_rem d SNAP_MIN = 0 /\ SNAP_MIN <= d))).
Proof.
  split; [|split; [|split; [|split; [|split]]]].
  - cbn. apply Forall_fmap, Forall_forall. intros b _. cbn.
    destruct (String.eqb_spec (id b) id0) as [Heq|Hne]; cbn.
    + intros _. split; [reflexivity | apply snapTo_rem].
    + intros Heq. by destruct Hne.
  - cbn. rewrite <- list_fmap_compose. apply list_fmap_ext. intros _ b _. cbn.
    by destruct (String.eqb (id b) id0).
  - cbn. rewrite <- list_fmap_compose. apply list_fmap_ext. intros _ b _. cbn.
    by destruct (String.eqb (id b) id0).
  - intros Hs. cbn. apply Forall_fmap. eapply Forall_impl; [exact Hs|].
    intros b Hb. cbn. destruct (String.eqb (id b) id0); [|exact Hb].
    by apply snapAligned_moved.
  - cbn. apply Forall_fmap, Forall_forall. intros b _. cbn.
    destruct (String.eqb_spec (id b) id0) as [Heq|Hne]; cbn; [done|].
    intros Heq. by destruct Hne.
  - intros Hs. split.
    + intros Ha. destruct (hasBlock id0 s) eqn:Hh; [right|by left].
      apply hasBlock_true in Hh as (b & Hb & Heq).
      rewrite Forall_forall in Hs, Ha.
      apply (snapAligned_resized b d (Hs b Hb)).
      specialize (Ha (spread b (durationPatch d))). apply Ha.
      cbn. apply list_elem_of_fmap. exists b. split; [|exact Hb].
      apply String.eqb_eq in Heq. by rewrite Heq.
    + intros Hc. cbn. apply Forall_fmap, Forall_forall. intros b Hb. cbn.
      rewrite Forall_forall in Hs.
      destruct (String.eqb_spec (id b) id0) as [Heq|Hne]; [|by apply Hs].
      destruct Hc as [Hc|Hc].
      * rewrite hasBlock_false in Hc. by destruct (Hc b Hb).
      * by apply (snapAligned_resized b d (Hs b Hb)).
Qed.

Lemma alignment_after_move_and_resize_witness :
  let s := sampleState [sampleBlock "b1" 480 60 (Some "g1")] in
  Forall snapAligned (blocks s)
  /\ Forall snapAligned (blocks (snd (moveBlock "b1" 500 s)))
  /\ Forall (fun b' => id b' = "b-x" -> js_rem (startMinOfDay b') SNAP_MIN = 0)
       (blocks (snd (moveBlock "b-x" 500
          (snd (addTemplateToDay "b-x" "2024-01-01" bt_breakfast (sampleState [])))))).
Proof.
  cbn zeta.
  assert (H : Forall snapAligned
                (blocks (sampleState [sampleBlock "b1" 480 60 (Some "g1")])))
    by aligned_by_computation.
  split; [exact H|]. split.
  - destruct (alignment_after_move_and_resize
                (sampleState [sampleBlock "b1" 480 60 (Some "g1")]) "b1" 500 90)
      as (_ & _ & _ & Hkeep & _).
    exact (Hkeep H).
  - destruct (alignment_after_move_and_resize
                (snd (addTemplateToDay "b-x" "2024-01-01" bt_breakfast (sampleState [])))
                "b-x" 500 90) as (Hstart & _).
    eapply Forall_impl; [exact Hstart|]. intros b' Hb' Hid. exact (proj2 (Hb' Hid)).
Defined.

(** C4 as stated fails: a requested duration of 20 is stored as 20, not as
    [max(30, snap(20)) = 30]. *)
Lemma onResize_does_not_snap :
  let b1 := sampleBlock "b1" 480 60 (Some "g1") in
  blocks (snd (onResize b1 20 (sampleState [b1]))) = [sampleBlock "b1" 480 20 (Some "g1")]
  /\ setDuration_spec 20 = 30
  /\ durationMin <$> blocks (snd (onResize b1 20 (sampleState [b1])))
     <> [setDuration_spec 20].
Proof.
  cbn zeta. split; [reflexivity|]. split; [reflexivity|]. discriminate.
Qed.

(** C4 (amended): the resize handler stores the requested duration as it is
    given, neither snapped nor raised to one snap unit, in the block it was
    built for; every other field of that block, its start included, and
    every block with another id stay as they were. *)
Theorem onResize_stores_duration_as_given s b (d : Z) k :
  blocks s !! k = Some b ->
  (exists b', blocks (snd (onResize b d s)) !! k = Some b'
     /\ durationMin b' = d
     /\ startMinOfDay b' = startMinOfDay b
     /\ id b' = id b /\ dateISO b' = dateISO b /\ templateId b' = templateId b
     /\ goalId b' = goalId b /\ note b' = note b)
  /\ (forall j c, blocks s !! j = Some c -> id c <> id b ->
        blocks (snd (onResize b d s)) !! j = Some c)
  /\ length (blocks (snd (onResize b d s))) = length (blocks s).
Proof.
  intros Hk. unfold onResize. split; [|split].
  - exists (spread b (durationPatch d)).
    rewrite changeBlock_lookup, Hk. cbn. rewrite String.eqb_refl. done.
  - intros j c Hj Hne. rewrite changeBlock_lookup, Hj. cbn.
    destruct (String.eqb_spec (id c) (id b)); [done|reflexivity].
  - cbn. apply length_fmap.
Qed.

Lemma onResize_stores_duration_as_given_witness :
  let b1 := sampleBlock "b1" 480 60 (Some "g1") in
  blocks (sampleState [b1]) !! 0%nat = Some b1
  /\ exists b', blocks (snd (onResize b1 45 (sampleState [b1]))) !! 0%nat = Some b'
       /\ durationMin b' = 45.
Proof.
  cbn zeta.
  assert (H : blocks (sampleState [sampleBlock "b1" 480 60 (Some "g1")]) !! 0%nat
              = Some (sampleBlock "b1" 480 60 (Some "g1"))) by reflexivity.
  split; [exact H|].
  destruct (onResize_stores_duration_as_given _ _ 45 _ H) as [(b' & Hb & Hd & _) _].
  exists b'. split; [exact Hb | exact Hd].
Defined.

End BlockStoreClaims.

Section MoveBlockClaims.

Implicit Types (s : AppState) (b : ScheduledBlock) (k : nat).

(** C5 as stated fails: with an absent id [moveBlock] returns the very value
    it returns on success and leaves the state as it was. *)
Lemma moveBlock_absent_no_signal :
  let s := sampleState [sampleBlock "b1" 480 90 (Some "g1")] in
  hasBlock "zz" s = false
  /\ hasBlock "b1" s = true
  /\ fst (moveBlock "zz" 500 s) = fst (moveBlock "b1" 500 s)
  /\ snd (moveBlock "zz" 500 s) = s.
Proof. cbn zeta. repeat split. Qed.

(** C5 (amended): [moveBlock] returns nothing in either case; for an id
    absent from the collection it is a silent no-op that leaves the state
    unchanged, and for an id that is present it sets the start of that
    block to [snapTo minute 30]. *)
Theorem moveBlock_silent_or_snapped s id0 (minute : Z) :
  (hasBlock id0 s = false -> moveBlock id0 minute s = (tt, s))
  /\ (forall k b, blocks s !! k = Some b -> id b = id0 ->
        blocks (snd (moveBlock id0 minute s)) !! k
        = Some (with_startMinOfDay b (snapTo minute SNAP_MIN)))
  /\ (forall s' id1 minute', fst (moveBlock id0 minute s) = fst (moveBlock id1 minute' s')).
Proof.
  split; [apply moveBlock_absent|]. split.
  - intros k b Hk Heq. rewrite moveBlock_lookup, Hk. cbn.
    apply String.eqb_eq in Heq. by rewrite Heq.
  - reflexivity.
Qed.

Lemma moveBlock_silent_or_snapped_witness :
  let b1 := sampleBlock "b1" 480 90 (Some "g1") in
  moveBlock "zz" 500 (sampleState [b1]) = (tt, sampleState [b1])
  /\ blocks (snd (moveBlock "b1" 500 (sampleState [b1]))) !! 0%nat
     = Some (with_startMinOfDay b1 (snapTo 500 SNAP_MIN)).
Proof.
  cbn zeta. split.
  - apply (proj1 (moveBlock_silent_or_snapped _ "zz" 500)). reflexivity.
  - apply (proj1 (proj2 (moveBlock_silent_or_snapped _ "b1" 500)) 0%nat);
      reflexivity.
Defined.

(** C8: a completed move changes only the start of the targeted block: its
    duration, date, goal, template, note and id are kept, every block with
    another id is kept whole, and no block is added or removed. *)
Theorem moveBlock_changes_start_only s id0 (newStart : Z) k b :
  blocks s !! k = Some b ->
  (exists b', blocks (snd (moveBlock id0 newStart s)) !! k = Some b'
     /\ id b' = id b /\ dateISO b' = dateISO b
     /\ durationMin b' = durationMin b /\ templateId b' = templateId b
     /\ goalId b' = goalId b /\ note b' = note b
     /\ (id b = id0 -> startMinOfDay b' = snapTo newStart SNAP_MIN)
     /\ (id b <> id0 -> b' = b))
  /\ length (blocks (snd (moveBlock id0 newStart s))) = length (blocks s)
  /\ goals (snd (moveBlock id0 newStart s)) = goals s
  /\ templates (snd (moveBlock id0 newStart s)) = templates s.
Proof.
  intros Hk. split; [|split; [cbn; apply length_fmap|split; reflexivity]].
  rewrite moveBlock_lookup, Hk. cbn.
  destruct (String.eqb_spec (id b) id0) as [Heq|Hne].
  - exists (with_startMinOfDay b (snapTo newStart SNAP_MIN)). cbn. tauto.
  - exists b. tauto.
Qed.

Lemma moveBlock_changes_start_only_witness :
  let b1 := sampleBlock "b1" 480 90 (Some "g1") in
  let b2 := sampleBlock "b2" 600 30 None in
  blocks (sampleState [b1; b2]) !! 1%nat = Some b2
  /\ exists b', blocks (snd (moveBlock "b1" 500 (sampleState [b1; b2]))) !! 1%nat = Some b'
       /\ durationMin b' = durationMin b2.
Proof.
  cbn zeta.
  assert (H : blocks (sampleState [sampleBlock "b1" 480 90 (Some "g1");
                                   sampleBlock "b2" 600 30 None]) !! 1%nat
              = Some (sampleBlock "b2" 600 30 None)) by reflexivity.
  split; [exact H|].
  destruct (moveBlock_changes_start_only _ "b1" 500 _ _ H)
    as [(b' & Hb & _ & _ & Hd & _) _].
  exists b'. split; [exact Hb | exact Hd].
Defined.

End MoveBlockClaims.

(** ** [totalsByGoal] *)

Section Totals.

Implicit Types (l : list ScheduledBlock) (b : ScheduledBlock) (g : string).

Lemma totalDuration_Permutation l l' :
  l ≡ₚ l' -> totalDuration l = totalDuration l'.
Proof.
  unfold totalDuration.
  induction 1 as [|x l1 l2 _ IH|x y l1|l1 l2 l3 _ IH1 _ IH2]; cbn; lia.
Qed.

Lemma bucket_Permutation l l' : l ≡ₚ l' -> bucket l = bucket l'.
Proof.
  intros H. destruct l as [|x l], l' as [|y l'].
  - reflexivity.
  - by apply Permutation_nil_cons in H.
  - symmetry in H. by apply Permutation_nil_cons in H.
  - unfold bucket. f_equal. by apply totalDuration_Permutation.
Qed.

(** The loop, started from any map. *)
Lemma totals_loop_lookup l (acc : gmap string Z) g :
  fold_left
    (fun (map : gmap string Z) b =>
       let g := goalKey b in <[g := default 0 (map !! g) + durationMin b]> map)
    l acc !! g
  = match filter (fun b => goalKey b = g) l with
    | [] => acc !! g
    | bs => Some (default 0 (acc !! g) + totalDuration bs)
    end.
Proof.
  revert acc. induction l as [|b l IH]; intros acc; [reflexivity|].
  cbn [fold_left]. rewrite IH. cbn zeta.
  destruct (decide (goalKey b = g)) as [Heq|Hne].
  - rewrite filter_cons_True by done. rewrite Heq, lookup_insert_eq. cbn.
    destruct (filter _ l) as [|x r]; f_equal; cbn; lia.
  - rewrite filter_cons_False by done. by rewrite lookup_insert_ne.
Qed.

Lemma totalsByGoal_lookup l g :
  totalsByGoal l !! g = bucket (filter (fun b => goalKey b = g) l).
Proof.
  unfold totalsByGoal. rewrite totals_loop_lookup, lookup_empty.
  destruct (filter _ l); cbn; [reflexivity|]. f_equal.
Qed.

Lemma totalsByGoal_Permutation l l' :
  l ≡ₚ l' -> totalsByGoal l = totalsByGoal l'.
Proof.
  intros H. apply map_eq. intros g. rewrite !totalsByGoal_lookup.
  apply bucket_Permutation. by rewrite H.
Qed.

Lemma goalKey_proper b g :
  g <> EmptyString -> g <> "none" -> goalKey b = g <-> goalId b = Some g.
Proof.
  intros He Hn. unfold goalKey. destruct (goalId b) as [g'|].
  - destruct (String.eqb_spec g' EmptyString) as [->|Hne]; split; congruence.
  - split; congruence.
Qed.

Lemma goalKey_none b :
  goalKey b = "none"
  <-> goalId b = None \/ goalId b = Some EmptyString \/ goalId b = Some "none".
Proof.
  unfold goalKey. destruct (goalId b) as [g'|].
  - destruct (String.eqb_spec g' EmptyString) as [->|Hne].
    + split; [auto|done].
    + split; [intros ->; auto|]. intros [H|[H|H]]; congruence.
  - split; [auto|done].
Qed.

End Totals.

Section TotalsClaims.

Implicit Types (l : list ScheduledBlock) (b : ScheduledBlock) (g : string).

(** C7 as stated fails where a goal id meets the sentinel: a block of goal
    "none" (30 minutes) and a block without goal (60 minutes) are summed
    under one key, and an empty goal id gets no key of its own. *)
Lemma sentinel_shared_with_goal_ids :
  let l := [sampleBlock "a" 480 30 (Some "none"); sampleBlock "b" 510 60 None] in
  bucket (filter (fun b => goalId b = Some "none") l) = Some 30
  /\ totalsByGoal l !! "none" = Some 90
  /\ totalsByGoal [sampleBlock "c" 480 30 (Some EmptyString)] !! EmptyString = None
  /\ totalsByGoal [sampleBlock "c" 480 30 (Some EmptyString)] !! "none" = Some 30.
Proof. cbn zeta. repeat split; vm_compute; reflexivity. Qed.

(** C7 (amended): [totalsByGoal] maps every goal id other than the empty
    string and the sentinel "none" to the summed duration of the blocks that
    carry it (no entry when there is none); the blocks without goal id, with
    an empty one or with the goal id "none" are summed together under the
    single key "none"; the empty sequence gives the empty mapping; the
    mapping does not depend on the order of the blocks; and two blocks of
    goal g1 lasting 30 and 60 give g1 -> 90. *)
Theorem totalsByGoal_sums_per_goal l l' g :
  g <> EmptyString -> g <> "none" -> l ≡ₚ l' ->
  totalsByGoal l !! g = bucket (filter (fun b => goalId b = Some g) l)
  /\ totalsByGoal l !! "none"
     = bucket (filter (fun b => goalId b = None \/ goalId b = Some EmptyString
                                \/ goalId b = Some "none") l)
  /\ totalsByGoal [] = ∅
  /\ totalsByGoal l' = totalsByGoal l
  /\ totalsByGoal [sampleBlock "a" 480 30 (Some "g1"); sampleBlock "b" 480 60 (Some "g1")]
     = {[ "g1" := 90 ]}.
Proof.
  intros He Hn Hp. repeat split.
  - rewrite totalsByGoal_lookup. f_equal. apply list_filter_iff.
    intros b. by apply goalKey_proper.
  - rewrite totalsByGoal_lookup. f_equal. apply list_filter_iff.
    intros b. apply goalKey_none.
  - symmetry. by apply totalsByGoal_Permutation.
Qed.

Lemma totalsByGoal_sums_per_goal_witness :
  let l := [sampleBlock "a" 480 30 (Some "g1"); sampleBlock "b" 480 60 (Some "g2");
            sampleBlock "c" 540 60 (Some "g1")] in
  let l' := [sampleBlock "b" 480 60 (Some "g2"); sampleBlock "a" 480 30 (Some "g1");
             sampleBlock "c" 540 60 (Some "g1")] in
  totalsByGoal l !! "g1" = Some 90 /\ totalsByGoal l' = totalsByGoal l.
Proof.
  cbn zeta.
  assert (He : "g1" <> EmptyString) by discriminate.
  assert (Hn : "g1" <> "none") by discriminate.
  assert (Hp : [sampleBlock "a" 480 30 (Some "g1"); sampleBlock "b" 480 60 (Some "g2");
                sampleBlock "c" 540 60 (Some "g1")]
               ≡ₚ [sampleBlock "b" 480 60 (Some "g2"); sampleBlock "a" 480 30 (Some "g1");
                   sampleBlock "c" 540 60 (Some "g1")]) by apply perm_swap.
  destruct (totalsByGoal_sums_per_goal _ _ "g1" He Hn Hp) as (H1 & _ & _ & H4 & _).
  split; [|exact H4]. rewrite H1. reflexivity.
Defined.

End TotalsClaims.

(** ** The by-date view: [dayBlocks] and the display sort *)

Section DisplaySort.

Implicit Types (l : list ScheduledBlock) (x y : ScheduledBlock).

Lemma sortInsert_Permutation x l : sortInsert byStart x l ≡ₚ x :: l.
Proof.
  induction l as [|y l IH]; cbn; [reflexivity|].
  destruct (byStart x y <=? 0); [reflexivity|].
  rewrite IH. apply perm_swap.
Qed.

Lemma stableSort_Permutation l : stableSort byStart l ≡ₚ l.
Proof.
  induction l as [|x l IH]; cbn; [reflexivity|].
  by rewrite sortInsert_Permutation, IH.
Qed.

Lemma sortInsert_sorted x l :
  StronglySorted startLe l -> StronglySorted startLe (sortInsert byStart x l).
Proof.
  induction 1 as [|y l Hl IH Hy]; cbn.
  - repeat constructor.
  - destruct (Z.leb_spec (byStart x y) 0) as [Hle|Hgt].
    + constructor; [by constructor|].
      constructor; [unfold startLe, byStart in *; lia|].
      eapply Forall_impl; [exact Hy|].
      intros z Hz. unfold startLe, byStart in *. lia.
    + constructor; [exact IH|].
      rewrite sortInsert_Permutation. constructor; [|exact Hy].
      unfold startLe, byStart in *. lia.
Qed.

Lemma stableSort_sorted l : StronglySorted startLe (stableSort byStart l).
Proof.
  induction l as [|x l IH]; cbn; [constructor|]. by apply sortInsert_sorted.
Qed.

(** An inserted block only passes blocks that start strictly earlier. *)
Lemma sortInsert_stable x l (k : Z) :
  filter (fun b => startMinOfDay b = k) (sortInsert byStart x l)
  = filter (fun b => startMinOfDay b = k) (x :: l).
Proof.
  induction l as [|y l IH]; cbn [sortInsert]; [reflexivity|].
  destruct (Z.leb_spec (byStart x y) 0) as [Hle|Hgt]; [reflexivity|].
  unfold byStart in Hgt.
  destruct (decide (startMinOfDay y = k)) as [Hy|Hy].
  - rewrite (filter_cons_True _ y) by done. rewrite IH.
    rewrite (filter_cons_False _ x) by lia.
    rewrite (filter_cons_False _ x) by lia.
    by rewrite filter_cons_True.
  - rewrite (filter_cons_False _ y) by done. rewrite IH.
    destruct (decide (startMinOfDay x = k)) as [Hx|Hx].
    + rewrite !(filter_cons_True _ x) by done. by rewrite filter_cons_False.
    + rewrite !(filter_cons_False _ x) by done. by rewrite filter_cons_False.
Qed.

Lemma stableSort_stable l (k : Z) :
  filter (fun b => startMinOfDay b = k) (stableSort byStart l)
  = filter (fun b => startMinOfDay b = k) l.
Proof.
  induction l as [|x l IH]; cbn [stableSort]; [reflexivity|].
  rewrite sortInsert_stable.
  destruct (decide (startMinOfDay x = k)).
  - rewrite !(filter_cons_True _ x) by done. by rewrite IH.
  - by rewrite !(filter_cons_False _ x).
Qed.

(** Allocation returns a reference that was not in use. *)
Lemma newArray_fresh (a : list ScheduledBlock) (h : gmap nat (list ScheduledBlock)) :
  exists r, newArray a h = Some (r, <[r := a]> h) /\ h !! r = None.
Proof.
  exists (fresh (dom h)). split; [reflexivity|].
  apply not_elem_of_dom, is_fresh.
Qed.

End DisplaySort.

Section DisplaySortClaims.

Implicit Types (h : gmap nat (list ScheduledBlock)) (l : list ScheduledBlock).

(** C6 as stated fails: two blocks starting at 480 stored as b2, b1 are
    shown as b2, b1; the tie is not broken by id. *)
Lemma ties_keep_stored_order :
  let b2 := sampleBlock "b2" 480 30 None in
  let b1 := sampleBlock "b1" 480 30 None in
  arrayOf (displayedBlocks "2024-01-01" 0%nat) {[ 0%nat := [b2; b1] ]} = Some [b2; b1]
  /\ spec_ordered [b2; b1] = false
  /\ spec_ordered [b1; b2] = true.
Proof. cbn zeta. repeat split; vm_compute; reflexivity. Qed.

(** C6 (amended): the by-date view holds exactly the blocks of that date,
    ordered by start ascending, blocks with equal starts staying in their
    stored order (the sort is stable and compares starts only); it is built
    in a new array, and the stored array and every other array keep their
    content and order. *)
Theorem displayedBlocks_sorted_stable_readonly h (stateBlocks : nat) l (date : string) :
  h !! stateBlocks = Some l ->
  exists (view : nat) h' (shown : list ScheduledBlock),
    displayedBlocks date stateBlocks h = Some (view, h')
    /\ h' !! view = Some shown
    /\ (forall b, b ∈ shown <-> b ∈ l /\ dateISO b = date)
    /\ shown ≡ₚ List.filter (fun b => String.eqb (dateISO b) date) l
    /\ StronglySorted startLe shown
    /\ (forall k : Z,
          filter (fun b => startMinOfDay b = k) shown
          = filter (fun b => startMinOfDay b = k)
              (List.filter (fun b => String.eqb (dateISO b) date) l))
    /\ (forall r a, h !! r = Some a -> h' !! r = Some a).
Proof.
  intros Hl. set (day := List.filter (fun b => String.eqb (dateISO b) date) l).
  unfold displayedBlocks, dayBlocks, Array_filter. rewrite Hl. fold day.
  destruct (newArray_fresh day h) as (r1 & -> & Hr1).
  unfold sorted, Array_spread. rewrite lookup_insert_eq.
  destruct (newArray_fresh day (<[r1 := day]> h)) as (r2 & -> & Hr2).
  unfold Array_sort. rewrite lookup_insert_eq.
  exists r2, (<[r2 := stableSort byStart day]> (<[r2 := day]> (<[r1 := day]> h))),
    (stableSort byStart day).
  split; [reflexivity|]. split; [apply lookup_insert_eq|].
  split; [|split; [apply stableSort_Permutation|
           split; [apply stableSort_sorted|split; [apply stableSort_stable|]]]].
  - intros b. rewrite stableSort_Permutation. unfold day.
    rewrite !list_elem_of_In, filter_In, String.eqb_eq. reflexivity.
  - intros r a Hr.
    assert (r <> r1) as Hn1 by congruence.
    assert (r <> r2) as Hn2.
    { intros ->. rewrite lookup_insert_ne in Hr2 by done. congruence. }
    by rewrite !lookup_insert_ne.
Qed.

Lemma displayedBlocks_sorted_stable_readonly_witness :
  let b2 := sampleBlock "b2" 510 30 None in
  let b1 := sampleBlock "b1" 480 30 None in
  ({[ 0%nat := [b2; b1] ]} : gmap nat (list ScheduledBlock)) !! 0%nat = Some [b2; b1]
  /\ exists view h',
       displayedBlocks "2024-01-01" 0%nat {[ 0%nat := [b2; b1] ]} = Some (view, h')
       /\ h' !! 0%nat = Some [b2; b1].
Proof.
  cbn zeta.
  assert (H : ({[ 0%nat := [sampleBlock "b2" 510 30 None; sampleBlock "b1" 480 30 None] ]}
                 : gmap nat (list ScheduledBlock)) !! 0%nat
              = Some [sampleBlock "b2" 510 30 None; sampleBlock "b1" 480 30 None])
    by reflexivity.
  split; [exact H|].
  destruct (displayedBlocks_sorted_stable_readonly _ _ _ "2024-01-01" H)
    as (view & h' & shown & Hrun & _ & _ & _ & _ & _ & Hkeep).
  exists view, h'. split; [exact Hrun | exact (Hkeep _ _ H)].
Defined.

End DisplaySortClaims.

(** ** The gesture path: [positionToStartMin], [handleDragEnd] *)

Section Gesture.

Implicit Types (rect : DOMRect) (g : GridState) (e : DragEndEvent).

(** Whatever the slot index, the final [clamp] lands on a slot start. *)
Lemma clamp_slot (k : Z) :
  DAY_START_MIN
    <= clamp (DAY_START_MIN + k * SNAP_MIN) DAY_START_MIN (DAY_END_MIN - SNAP_MIN)
    <= DAY_END_MIN - SNAP_MIN
  /\ clamp (DAY_START_MIN + k * SNAP_MIN) DAY_START_MIN (DAY_END_MIN - SNAP_MIN)
      mod SNAP_MIN = 0.
Proof.
  unfold clamp, DAY_START_MIN, DAY_END_MIN, SNAP_MIN. split; [lia|].
  assert (Z.max (8 * 60) (Z.min (24 * 60 - 30) (8 * 60 + k * 30)) = 30 * 16
          \/ Z.max (8 * 60) (Z.min (24 * 60 - 30) (8 * 60 + k * 30)) = 30 * 47
          \/ Z.max (8 * 60) (Z.min (24 * 60 - 30) (8 * 60 + k * 30)) = 30 * (16 + k))
    as [-> | [-> | ->]] by lia; rewrite Z.mul_comm; apply Z.mod_mul; lia.
Qed.

Lemma slotH_nonzero rect :
  (0 < height rect)%Q -> Qeq_bool (height rect / inject_Z SLOT_COUNT)%Q 0 = false.
Proof.
  intros Hh. destruct (Qeq_bool _ _) eqn:E; [|reflexivity].
  apply Qeq_bool_iff in E. change (inject_Z SLOT_COUNT) with (32#1)%Q in E.
  exfalso.
  assert (height rect == (height rect / (32#1)) * (32#1))%Q as H1 by field.
  rewrite E in H1. lra.
Qed.

Lemma positionToStartMin_slot rect (clientX clientY : Q) :
  (0 < height rect)%Q ->
  positionToStartMin (Some rect) clientX clientY
  = Some (clamp (DAY_START_MIN
                 + Qfloor (clampQ (clientY - top rect)%Q 0%Q (height rect)
                           / (height rect / inject_Z SLOT_COUNT))%Q * SNAP_MIN)
            DAY_START_MIN (DAY_END_MIN - SNAP_MIN)).
Proof.
  intros Hh. unfold positionToStartMin. by rewrite slotH_nonzero.
Qed.

Lemma snapTo_of_multiple (m : Z) : m mod SNAP_MIN = 0 -> snapTo m SNAP_MIN = m.
Proof.
  unfold SNAP_MIN at 1. intros Hm.
  rewrite (Z_div_exact_full_2 m 30) at 1 2 by (lia || exact Hm).
  apply snapTo_fixed.
Qed.

(** The blocks with the moved id all carry the snapped start. *)
Lemma moveBlock_start s (id0 : string) (newStart : Z) :
  Forall (fun b => id b = id0 -> startMinOfDay b = snapTo newStart SNAP_MIN)
    (blocks (snd (moveBlock id0 newStart s))).
Proof.
  cbn. apply Forall_fmap, Forall_forall. intros b _. cbn.
  destruct (String.eqb_spec (id b) id0); cbn; [done|]. by intros ?.
Qed.

End Gesture.

Section GestureClaims.

Implicit Types (rect : DOMRect) (g : GridState).

(** C3: the code does not do what the claim and its own comment ("move to
    nearest slot based on final pointer position") say.  On the 960-pixel
    grid a block at 480 is grabbed at y = 80 and released 60 pixels higher, at
    y = 20, the position of minute 500.  The handler converts the position
    of the pointer going down, whatever the movement was, and the block
    lands on 540, not on 510; the position of the release itself would
    convert to 480. *)
Theorem handleDragEnd_uses_pointer_down_position :
  let g := {| app := sampleState [sampleBlock "b1" 480 90 (Some "g1")];
              draggingId := Some "b1" |} in
  let up := {| coord_x := 0%Q; coord_y := (-60)%Q |} in
  (finalClientY (pointerEvent "b1" up 80%Q) == minuteToClientY sampleGrid 500)%Q
  /\ (fun g' => startMinOfDay <$> blocks (app g'))
       <$> handleDragEnd (Some sampleGrid) (pointerEvent "b1" up 80%Q) g
     = Some [540]
  /\ (forall delta0 : Coordinates,
        handleDragEnd (Some sampleGrid) (pointerEvent "b1" delta0 80%Q) g
        = handleDragEnd (Some sampleGrid) (pointerEvent "b1" up 80%Q) g)
  /\ positionToStartMin (Some sampleGrid) 0%Q
       (finalClientY (pointerEvent "b1" up 80%Q)) = Some 480
  /\ snapTo 500 SNAP_MIN = 510.
Proof.
  cbn zeta. split; [reflexivity|]. split; [reflexivity|].
  split; [intros delta0; reflexivity|]. split; reflexivity.
Qed.

(** C10: for every pointer position and every grid of positive height,
    [positionToStartMin] returns a multiple of 30 within [[480, 1410]], also
    when the pointer is above or below the grid; [snapTo] leaves it as it
    is, so the start stored by a completed drag is that minute, although
    [moveBlock] does not clamp. *)
Theorem positionToStartMin_snapped_in_range rect (clientX clientY : Q) (id0 : string)
    (delta0 : Coordinates) g :
  (0 < height rect)%Q ->
  exists m : Z,
    positionToStartMin (Some rect) clientX clientY = Some m
    /\ m mod SNAP_MIN = 0
    /\ DAY_START_MIN <= m <= DAY_END_MIN - SNAP_MIN
    /\ snapTo m SNAP_MIN = m
    /\ handleDragEnd (Some rect) (pointerEvent id0 delta0 clientY) g
       = Some {| app := snd (moveBlock id0 m (app g)); draggingId := None |}
    /\ Forall (fun b => id b = id0 -> startMinOfDay b = m)
         (blocks (snd (moveBlock id0 m (app g)))).
Proof.
  intros Hh.
  pose proof (positionToStartMin_slot rect clientX clientY Hh) as Hp.
  set (k := Qfloor _) in Hp.
  destruct (clamp_slot k) as [Hr Hm].
  set (m := clamp _ _ _) in *.
  exists m. split; [exact Hp|]. split; [exact Hm|]. split; [exact Hr|].
  split; [by apply snapTo_of_multiple|]. split.
  - unfold handleDragEnd, pointerEvent; cbn [activatorEvent active_id].
    unfold pointerClientY; cbn [ev_clientY].
    rewrite (positionToStartMin_slot rect 0%Q clientY Hh). reflexivity.
  - pose proof (moveBlock_start (app g) id0 m) as Hs.
    by rewrite (snapTo_of_multiple m Hm) in Hs.
Qed.

Lemma positionToStartMin_snapped_in_range_witness :
  (0 < height sampleGrid)%Q
  /\ exists m : Z,
       positionToStartMin (Some sampleGrid) 0%Q 5000%Q = Some m
       /\ m mod SNAP_MIN = 0
       /\ DAY_START_MIN <= m <= DAY_END_MIN - SNAP_MIN.
Proof.
  assert (H : (0 < height sampleGrid)%Q) by reflexivity.
  split; [exact H|].
  destruct (positionToStartMin_snapped_in_range sampleGrid 0%Q 5000%Q "b1"
              {| coord_x := 0%Q; coord_y := 0%Q |}
              {| app := sampleState []; draggingId := None |} H)
    as (m & Hp & Hm & Hr & _).
  exists m. split; [exact Hp|]. split; [exact Hm | exact Hr].
Defined.

End GestureClaims.

(** * Further properties of the code *)

(** ** [clamp] and [minutesToLabel] *)

Section Labels.

(** With ordered bounds [clamp] lands between them, keeps what is already
    between them, sends what is outside to the nearer bound, and a second
    application changes nothing. *)
Theorem clamp_within_bounds (n lo hi : Z) :
  lo <= hi ->
  lo <= clamp n lo hi <= hi
  /\ clamp (clamp n lo hi) lo hi = clamp n lo hi
  /\ (n <= lo -> clamp n lo hi = lo)
  /\ (hi <= n -> clamp n lo hi = hi)
  /\ (lo <= n <= hi -> clamp n lo hi = n).
Proof. unfold clamp. lia. Qed.

Lemma clamp_within_bounds_witness :
  DAY_START_MIN <= DAY_END_MIN - SNAP_MIN
  /\ clamp 2000 DAY_START_MIN (DAY_END_MIN - SNAP_MIN) = DAY_END_MIN - SNAP_MIN.
Proof.
  assert (H : DAY_START_MIN <= DAY_END_MIN - SNAP_MIN) by (vm_compute; congruence).
  split; [exact H|].
  destruct (clamp_within_bounds 2000 _ _ H) as (_ & _ & _ & Hhi & _).
  apply Hhi. vm_compute; congruence.
Defined.

Lemma minutesToLabel_div (min : Z) :
  minutesToLabel min
  = pretty (js_rem (min / 60 + 11) 12 + 1) +:+ ":"
    +:+ padStart 2 "0" (pretty (js_rem min 60)) +:+ " "
    +:+ (if min / 60 <? 12 then "AM" else "PM").
Proof.
  unfold minutesToLabel. by rewrite <- (Zdiv_Qdiv min 60).
Qed.

(** From noon on the label repeats every twelve hours: AM never comes back,
    so midnight at the end of the grid (1440) reads like noon (720). *)
Theorem minutesToLabel_pm_repeats (min : Z) :
  720 <= min -> minutesToLabel (min + 720) = minutesToLabel min.
Proof.
  intros Hmin. rewrite !minutesToLabel_div. unfold js_rem.
  replace (min + 720) with (min + 12 * 60) by lia.
  rewrite Z.div_add by lia.
  assert (12 <= min / 60) as Hh by (apply Z.div_le_lower_bound; lia).
  rewrite !Z.rem_mod_nonneg by lia.
  rewrite Z.mod_add by lia.
  replace (min / 60 + 12 + 11) with (min / 60 + 11 + 1 * 12) by lia.
  rewrite Z.mod_add by lia.
  replace (min / 60 + 12 <? 12) with false by (symmetry; apply Z.ltb_ge; lia).
  replace (min / 60 <? 12) with false by (symmetry; apply Z.ltb_ge; lia).
  reflexivity.
Qed.

Lemma minutesToLabel_pm_repeats_witness :
  720 <= 720 /\ minutesToLabel 1440 = minutesToLabel 720.
Proof.
  assert (H : 720 <= 720) by lia.
  split; [exact H | exact (minutesToLabel_pm_repeats 720 H)].
Defined.

Lemma NoDup_fmap_inj_on {A B : Type} (f : A -> B) (l : list A) (x y : A) :
  NoDup (f <$> l) -> x ∈ l -> y ∈ l -> f x = f y -> x = y.
Proof.
  induction l as [|a l IH]; intros Hnd Hx Hy Hf; [by apply elem_of_nil in Hx|].
  rewrite fmap_cons in Hnd. apply NoDup_cons in Hnd as [Ha Hnd].
  apply elem_of_cons in Hx as [->|Hx]; apply elem_of_cons in Hy as [->|Hy].
  - reflexivity.
  - destruct Ha. rewrite Hf. by apply list_elem_of_fmap_2.
  - destruct Ha. rewrite <- Hf. by apply list_elem_of_fmap_2.
  - by apply IH.
Qed.

Lemma day_labels_NoDup : NoDup (minutesToLabel <$> seqZ 0 1440).
Proof. apply (bool_decide_unpack _). vm_compute. exact I. Qed.

(** Within one day, from 0 up to 1439, two different minutes never get the
    same label. *)
Theorem minutesToLabel_injective_in_day (a b : Z) :
  0 <= a < 1440 -> 0 <= b < 1440 ->
  minutesToLabel a = minutesToLabel b -> a = b.
Proof.
  intros Ha Hb. apply (NoDup_fmap_inj_on minutesToLabel (seqZ 0 1440)).
  - exact day_labels_NoDup.
  - apply elem_of_seqZ. lia.
  - apply elem_of_seqZ. lia.
Qed.

Lemma minutesToLabel_injective_in_day_witness :
  0 <= 545 < 1440 /\ 545 = 1440 - 895.
Proof.
  assert (Ha : 0 <= 545 < 1440) by lia.
  assert (Hb : 0 <= 1440 - 895 < 1440) by lia.
  split; [exact Ha|].
  apply (minutesToLabel_injective_in_day 545 (1440 - 895) Ha Hb). reflexivity.
Defined.

End Labels.

(** ** How the block store operations compose *)

Section StoreComposition.

Implicit Types (s : AppState) (b : ScheduledBlock) (l : list ScheduledBlock).

(** A second move of the same block overrides the first; in particular a
    repeated move changes nothing more. *)
Theorem moveBlock_last_wins s (id0 : string) (m1 m2 : Z) :
  snd (moveBlock id0 m2 (snd (moveBlock id0 m1 s))) = snd (moveBlock id0 m2 s).
Proof.
  cbn. unfold with_blocks; cbn. f_equal.
  rewrite <- list_fmap_compose. apply list_fmap_ext. intros _ b _. cbn.
  destruct (String.eqb (id b) id0) eqn:E; cbn; by rewrite E.
Qed.

(** Moves of blocks with different ids can be done in either order. *)
Theorem moveBlock_commutes s (i j : string) (m1 m2 : Z) :
  i <> j ->
  snd (moveBlock j m2 (snd (moveBlock i m1 s)))
  = snd (moveBlock i m1 (snd (moveBlock j m2 s))).
Proof.
  intros Hij. cbn. unfold with_blocks; cbn. f_equal.
  rewrite <- !list_fmap_compose. apply list_fmap_ext. intros _ b _. cbn.
  destruct (String.eqb (id b) i) eqn:Ei, (String.eqb (id b) j) eqn:Ej;
    cbn; rewrite ?Ei, ?Ej; try reflexivity.
  apply String.eqb_eq in Ei, Ej. congruence.
Qed.

Lemma moveBlock_commutes_witness :
  let s := sampleState [sampleBlock "b1" 480 90 None; sampleBlock "b2" 600 30 None] in
  "b1" <> "b2"
  /\ snd (moveBlock "b2" 700 (snd (moveBlock "b1" 500 s)))
     = snd (moveBlock "b1" 500 (snd (moveBlock "b2" 700 s))).
Proof.
  cbn zeta.
  assert (H : "b1" <> "b2") by discriminate.
  split; [exact H | exact (moveBlock_commutes _ "b1" "b2" 500 700 H)].
Defined.

(** The totals only look at the goal key and the duration of each block. *)
Lemma totalsByGoal_fmap (f : ScheduledBlock -> ScheduledBlock) l :
  (forall b, goalKey (f b) = goalKey b /\ durationMin (f b) = durationMin b) ->
  totalsByGoal (f <$> l) = totalsByGoal l.
Proof.
  intros Hf. unfold totalsByGoal. generalize (∅ : gmap string Z).
  induction l as [|b l IH]; intros acc; [reflexivity|].
  cbn. destruct (Hf b) as [-> ->]. apply IH.
Qed.

Lemma blocksOfDate_fmap (f : ScheduledBlock -> ScheduledBlock) (d : string) l :
  (forall b, dateISO (f b) = dateISO b) ->
  blocksOfDate d (f <$> l) = f <$> blocksOfDate d l.
Proof.
  intros Hf. unfold blocksOfDate. induction l as [|b l IH]; [reflexivity|].
  cbn. rewrite Hf. destruct (String.eqb (dateISO b) d); cbn; by rewrite IH.
Qed.

(** Moving a block never changes the totals of any date. *)
Theorem moveBlock_keeps_totals s (id0 d : string) (newStart : Z) :
  totalsByGoal (blocksOfDate d (blocks (snd (moveBlock id0 newStart s))))
  = totalsByGoal (blocksOfDate d (blocks s)).
Proof.
  unfold moveBlock, setState. cbn [snd blocks with_blocks].
  rewrite blocksOfDate_fmap.
  - apply totalsByGoal_fmap. intros b. by destruct (String.eqb (id b) id0).
  - intros b. by destruct (String.eqb (id b) id0).
Qed.

Lemma totalsByGoal_snoc l b :
  totalsByGoal (l ++ [b])
  = <[goalKey b := default 0 (totalsByGoal l !! goalKey b) + durationMin b]>
      (totalsByGoal l).
Proof. unfold totalsByGoal. by rewrite fold_left_app. Qed.

(** Adding a template to a day appends one block at the day start with the
    template's duration (as it is, unsnapped) and goal, keeps the stored
    blocks in place, raises that day's total of the block's goal key by the
    duration, and leaves the blocks of every other date as they were. *)
Theorem addTemplateToDay_appends s (newId d d' : string) (tpl : BlockTemplate) :
  d' <> d ->
  exists nb,
    blocks (snd (addTemplateToDay newId d tpl s)) = blocks s ++ [nb]
    /\ id nb = newId /\ dateISO nb = d
    /\ startMinOfDay nb = DAY_START_MIN
    /\ durationMin nb = defaultDurationMin tpl
    /\ goalId nb = defaultGoalId tpl
    /\ totalsByGoal (blocksOfDate d (blocks (snd (addTemplateToDay newId d tpl s))))
       = <[goalKey nb := default 0 (totalsByGoal (blocksOfDate d (blocks s)) !! goalKey nb)
                          + defaultDurationMin tpl]>
           (totalsByGoal (blocksOfDate d (blocks s)))
    /\ blocksOfDate d' (blocks (snd (addTemplateToDay newId d tpl s)))
       = blocksOfDate d' (blocks s).
Proof.
  intros Hd. eexists. split; [reflexivity|]. cbn [id dateISO startMinOfDay durationMin goalId].
  repeat (split; [reflexivity|]). cbn [snd addTemplateToDay setState with_blocks blocks].
  unfold blocksOfDate. rewrite !List.filter_app. cbn [List.filter dateISO].
  rewrite String.eqb_refl. split.
  - by rewrite totalsByGoal_snoc.
  - rewrite (proj2 (String.eqb_neq d d')) by done. apply app_nil_r.
Qed.

Lemma addTemplateToDay_appends_witness :
  "2024-01-02" <> "2024-01-01"
  /\ exists nb,
       blocks (snd (addTemplateToDay "b-x" "2024-01-01" bt_breakfast (sampleState [])))
       = [nb]
       /\ durationMin nb = 20.
Proof.
  assert (H : "2024-01-02" <> "2024-01-01") by discriminate.
  split; [exact H|].
  destruct (addTemplateToDay_appends (sampleState []) "b-x" "2024-01-01" "2024-01-02"
              bt_breakfast H) as (nb & Hb & _ & _ & _ & Hd & _).
  exists nb. split; [exact Hb | exact Hd].
Defined.

(** [changeBlock] with an id that no block carries changes nothing. *)
Theorem changeBlock_absent s (id0 : string) (next : PartialScheduledBlock) :
  hasBlock id0 s = false -> changeBlock id0 next s = (tt, s).
Proof.
  intros H. unfold changeBlock, setState. f_equal.
  rewrite fmap_untouched; [apply with_blocks_same|].
  intros b Hb. rewrite hasBlock_false in H.
  destruct (String.eqb_spec (id b) id0) as [Heq|]; [|reflexivity].
  by destruct (H b Hb).
Qed.

Lemma changeBlock_absent_witness :
  let s := sampleState [sampleBlock "b1" 480 90 None] in
  hasBlock "zz" s = false /\ changeBlock "zz" (durationPatch 45) s = (tt, s).
Proof.
  cbn zeta.
  assert (H : hasBlock "zz" (sampleState [sampleBlock "b1" 480 90 None]) = false)
    by reflexivity.
  split; [exact H | exact (changeBlock_absent _ "zz" (durationPatch 45) H)].
Defined.

End StoreComposition.

(** ** Where a pointer lands on the grid *)

Section PointerToSlot.

Implicit Types (rect : DOMRect) (g : GridState) (e : DragEndEvent).

Lemma slotH_pos rect :
  (0 < height rect)%Q -> (0 < height rect / inject_Z SLOT_COUNT)%Q.
Proof.
  intros Hh. change (inject_Z SLOT_COUNT) with (32#1)%Q.
  apply Qlt_shift_div_l; [reflexivity | lra].
Qed.

Lemma clampQ_mono (a b lo hi : Q) : (a <= b)%Q -> (clampQ a lo hi <= clampQ b lo hi)%Q.
Proof.
  intros Hab. unfold clampQ. apply Q.max_le_compat_l. by apply Q.min_le_compat_l.
Qed.

(** A lower pointer never gives an earlier minute. *)
Theorem positionToStartMin_monotone rect (x1 x2 y1 y2 : Q) :
  (0 < height rect)%Q -> (y1 <= y2)%Q ->
  exists m1 m2 : Z,
    positionToStartMin (Some rect) x1 y1 = Some m1
    /\ positionToStartMin (Some rect) x2 y2 = Some m2
    /\ m1 <= m2.
Proof.
  intros Hh Hy. rewrite !positionToStartMin_slot by done.
  eexists _, _. split; [reflexivity|]. split; [reflexivity|].
  pose proof (slotH_pos rect Hh) as Hs.
  assert (Qfloor (clampQ (y1 - top rect) 0 (height rect)
                  / (height rect / inject_Z SLOT_COUNT))%Q
          <= Qfloor (clampQ (y2 - top rect) 0 (height rect)
                     / (height rect / inject_Z SLOT_COUNT))%Q) as Hf.
  { apply Qfloor_resp_le. unfold Qdiv. apply Qmult_le_compat_r.
    - apply clampQ_mono. lra.
    - apply Qinv_le_0_compat, Qlt_le_weak, Hs. }
  unfold clamp, SNAP_MIN. lia.
Qed.

Lemma positionToStartMin_monotone_witness :
  (0 < height sampleGrid)%Q /\ (100 <= 500)%Q
  /\ exists m1 m2 : Z,
       positionToStartMin (Some sampleGrid) 0%Q 100%Q = Some m1
       /\ positionToStartMin (Some sampleGrid) 0%Q 500%Q = Some m2
       /\ m1 <= m2.
Proof.
  assert (Hh : (0 < height sampleGrid)%Q) by reflexivity.
  assert (Hy : (100 <= 500)%Q) by (vm_compute; congruence).
  split; [exact Hh|]. split; [exact Hy|].
  exact (positionToStartMin_monotone sampleGrid 0%Q 0%Q 100%Q 500%Q Hh Hy).
Defined.

Lemma pointer_above_grid rect (clientX clientY : Q) :
  (0 < height rect)%Q -> (clientY <= top rect)%Q ->
  positionToStartMin (Some rect) clientX clientY = Some DAY_START_MIN.
Proof.
  intros Hh Hy. rewrite positionToStartMin_slot by done.
  assert (clampQ (clientY - top rect) 0 (height rect) == 0)%Q as ->.
  { unfold clampQ. apply Q.max_l.
    eapply Qle_trans; [apply Q.le_min_r|lra]. }
  change (Qfloor (0 / (height rect / inject_Z SLOT_COUNT))) with 0. reflexivity.
Qed.

(** A pointer at or above the top edge gives the day start (480); a pointer
    at or below the bottom edge gives the start of the last slot (1410). *)
Theorem positionToStartMin_outside rect (clientX clientY : Q) :
  (0 < height rect)%Q ->
  ((clientY <= top rect)%Q ->
     positionToStartMin (Some rect) clientX clientY = Some DAY_START_MIN)
  /\ ((top rect + height rect <= clientY)%Q ->
        positionToStartMin (Some rect) clientX clientY = Some (DAY_END_MIN - SNAP_MIN)).
Proof.
  intros Hh. split; intros Hy; [by apply pointer_above_grid|].
  rewrite positionToStartMin_slot by done.
  assert (clampQ (clientY - top rect) 0 (height rect) == height rect)%Q as ->.
  { unfold clampQ. rewrite Q.min_l by lra. apply Q.max_r. lra. }
  assert (height rect / (height rect / inject_Z SLOT_COUNT) == 32#1)%Q as ->.
  { change (inject_Z SLOT_COUNT) with (32#1)%Q. field. lra. }
  reflexivity.
Qed.

Lemma positionToStartMin_outside_witness :
  (0 < height sampleGrid)%Q
  /\ positionToStartMin (Some sampleGrid) 0%Q (-7)%Q = Some DAY_START_MIN.
Proof.
  assert (Hh : (0 < height sampleGrid)%Q) by reflexivity.
  split; [exact Hh|].
  apply (proj1 (positionToStartMin_outside sampleGrid 0%Q (-7)%Q Hh)).
  vm_compute. congruence.
Defined.

End PointerToSlot.

(** ** The end of a drag *)

Section DragEnd.

Implicit Types (rect : DOMRect) (g : GridState) (e : DragEndEvent).

Lemma moveBlock_keeps_ids s (id0 : string) (newStart : Z) :
  id <$> blocks (snd (moveBlock id0 newStart s)) = id <$> blocks s.
Proof.
  cbn. rewrite <- list_fmap_compose. apply list_fmap_ext. intros _ b _. cbn.
  by destruct (String.eqb (id b) id0).
Qed.

(** Without a grid element, or with one of positive height, the drag-end
    handler completes and the drag is over ([draggingId] is null), the goals
    and templates are the same, the same ids are stored in the same order,
    and no total of any date has moved; without a grid element the
    application state is not touched at all. *)
Theorem handleDragEnd_frame (grid : option DOMRect) e g :
  grid = None \/ (exists rect, grid = Some rect /\ (0 < height rect)%Q) ->
  exists g',
    handleDragEnd grid e g = Some g'
    /\ draggingId g' = None
    /\ goals (app g') = goals (app g)
    /\ templates (app g') = templates (app g)
    /\ id <$> blocks (app g') = id <$> blocks (app g)
    /\ (forall d, totalsByGoal (blocksOfDate d (blocks (app g')))
                 = totalsByGoal (blocksOfDate d (blocks (app g))))
    /\ (grid = None -> app g' = app g).
Proof.
  intros [-> | (rect & -> & Hh)].
  - eexists. split; [reflexivity|]. cbn. done.
  - unfold handleDragEnd. rewrite positionToStartMin_slot by done.
    eexists. split; [reflexivity|]. cbn [draggingId app].
    split; [reflexivity|]. split; [reflexivity|]. split; [reflexivity|].
    split; [apply moveBlock_keeps_ids|]. split; [|discriminate].
    intros d. unfold moveBlock, setState. cbn [snd blocks with_blocks].
    rewrite blocksOfDate_fmap.
    + apply totalsByGoal_fmap. intros b. by destruct (String.eqb (id b) _).
    + intros b. by destruct (String.eqb (id b) _).
Qed.

Lemma handleDragEnd_frame_witness :
  let g := {| app := sampleState [sampleBlock "b1" 480 90 (Some "g1");
                                  sampleBlock "b2" 600 30 None];
              draggingId := Some "b1" |} in
  let e := pointerEvent "b1" {| coord_x := 0%Q; coord_y := 40%Q |} 100%Q in
  (0 < height sampleGrid)%Q
  /\ exists g',
       handleDragEnd (Some sampleGrid) e g = Some g'
       /\ draggingId g' = None
       /\ startMinOfDay <$> blocks (app g') = [570; 600]
       /\ id <$> blocks (app g') = ["b1"; "b2"].
Proof.
  cbn zeta.
  assert (Hh : (0 < height sampleGrid)%Q) by reflexivity.
  split; [exact Hh|].
  destruct (handleDragEnd_frame (Some sampleGrid)
              (pointerEvent "b1" {| coord_x := 0%Q; coord_y := 40%Q |} 100%Q)
              {| app := sampleState [sampleBlock "b1" 480 90 (Some "g1");
                                     sampleBlock "b2" 600 30 None];
                 draggingId := Some "b1" |}
              (or_intror (ex_intro _ sampleGrid (conj eq_refl Hh))))
    as (g' & Hrun & Hd & _ & _ & Hids & _).
  exists g'. split; [exact Hrun|]. split; [exact Hd|]. split; [|exact Hids].
  assert (Some g' = Some {| app := snd (moveBlock "b1" 570
                                         (sampleState [sampleBlock "b1" 480 90 (Some "g1");
                                                       sampleBlock "b2" 600 30 None]));
                            draggingId := None |}) as [= ->]
    by (rewrite <- Hrun; reflexivity).
  reflexivity.
Defined.

(** An activator event that carries neither a [clientY] nor a touch counts
    as a pointer at the top of the viewport: with the grid at or below it,
    the dragged block is sent to the day start. *)
Theorem handleDragEnd_without_coordinates rect (id0 : string)
    (delta0 : Coordinates) (touches : option (list Q)) g :
  (0 < height rect)%Q -> (0 <= top rect)%Q ->
  touches = None \/ touches = Some [] ->
  handleDragEnd (Some rect)
    {| active_id := id0;
       delta := delta0;
       activatorEvent := {| ev_clientY := None; ev_touches := touches |} |} g
  = Some {| app := snd (moveBlock id0 DAY_START_MIN (app g)); draggingId := None |}
  /\ Forall (fun b => id b = id0 -> startMinOfDay b = DAY_START_MIN)
       (blocks (snd (moveBlock id0 DAY_START_MIN (app g)))).
Proof.
  intros Hh Ht Hev.
  assert (pointerClientY {| ev_clientY := None; ev_touches := touches |} = 0%Q) as Hp
    by (destruct Hev as [-> | ->]; reflexivity).
  split.
  - unfold handleDragEnd. cbn [activatorEvent active_id]. rewrite Hp.
    by rewrite (pointer_above_grid rect 0%Q 0%Q Hh Ht).
  - pose proof (moveBlock_start (app g) id0 DAY_START_MIN) as Hs.
    assert (snapTo DAY_START_MIN SNAP_MIN = DAY_START_MIN) as E
      by exact (snapTo_fixed 16).
    by rewrite E in Hs.
Qed.

Lemma handleDragEnd_without_coordinates_witness :
  let g := {| app := sampleState [sampleBlock "b1" 600 90 None];
              draggingId := Some "b1" |} in
  (0 < height sampleGrid)%Q /\ (0 <= top sampleGrid)%Q
  /\ handleDragEnd (Some sampleGrid)
       {| active_id := "b1";
          delta := {| coord_x := 0%Q; coord_y := 0%Q |};
          activatorEvent := {| ev_clientY := None; ev_touches := None |} |} g
     = Some {| app := snd (moveBlock "b1" DAY_START_MIN (app g)); draggingId := None |}.
Proof.
  cbn zeta.
  assert (Hh : (0 < height sampleGrid)%Q) by reflexivity.
  assert (Ht : (0 <= top sampleGrid)%Q) by (vm_compute; congruence).
  split; [exact Hh|]. split; [exact Ht|].
  exact (proj1 (handleDragEnd_without_coordinates sampleGrid "b1" _ None _ Hh Ht
                  (or_introl eq_refl))).
Defined.

End DragEnd.

(** ** Goal lookup and block colours *)

Section Colours.

Implicit Types (gs : list Goal) (g : Goal) (b : ScheduledBlock) (k : string).

Lemma goalMap_snoc gs g : goalMap (gs ++ [g]) = <[goal_id g := g]> (goalMap gs).
Proof. unfold goalMap. by rewrite fold_left_app. Qed.

(** [goalMap[id]] is the last goal of the list that has this id. *)
Lemma goalMap_lookup gs k :
  goalMap gs !! k = last (filter (fun g => goal_id g = k) gs).
Proof.
  induction gs as [|g gs IH] using rev_ind; [reflexivity|].
  rewrite goalMap_snoc, filter_app.
  destruct (decide (goal_id g = k)) as [Heq|Hne].
  - rewrite filter_cons_True by done. rewrite Heq, lookup_insert_eq.
    cbn. by rewrite last_snoc.
  - rewrite filter_cons_False by done. rewrite lookup_insert_ne by done.
    cbn. by rewrite app_nil_r.
Qed.

Lemma filter_no_goal gs k :
  (forall g, g ∈ gs -> goal_id g <> k) -> filter (fun g => goal_id g = k) gs = [].
Proof.
  induction gs as [|a gs IH]; intros H; [reflexivity|].
  rewrite filter_cons_False by (apply H; left). apply IH.
  intros g Hg. apply H. by right.
Qed.

Lemma filter_unique_id gs g :
  NoDup (goal_id <$> gs) -> g ∈ gs ->
  filter (fun g' => goal_id g' = goal_id g) gs = [g].
Proof.
  induction gs as [|a gs IH]; intros Hnd Hin; [by apply elem_of_nil in Hin|].
  rewrite fmap_cons in Hnd. apply NoDup_cons in Hnd as [Ha Hnd].
  apply elem_of_cons in Hin as [->|Hin].
  - rewrite filter_cons_True by done. f_equal.
    apply filter_no_goal. intros g' Hg' Heq.
    apply Ha. rewrite <- Heq. by apply list_elem_of_fmap_2.
  - rewrite filter_cons_False; [by apply IH|].
    intros Heq. apply Ha. rewrite Heq. by apply list_elem_of_fmap_2.
Qed.

(** When several goals share an id, [goalMap] keeps the one that comes last
    in the list; an id that no goal has is not in the map. *)
Theorem goalMap_later_entry_wins gs1 g gs2 k :
  ((forall g', g' ∈ gs2 -> goal_id g' <> goal_id g) ->
     goalMap (gs1 ++ g :: gs2) !! goal_id g = Some g)
  /\ ((forall g', g' ∈ gs1 -> goal_id g' <> k) -> goalMap gs1 !! k = None).
Proof.
  split; intros H; rewrite goalMap_lookup.
  - rewrite filter_app, filter_cons_True by done.
    rewrite (filter_no_goal gs2) by done. apply last_snoc.
  - by rewrite filter_no_goal.
Qed.

Lemma goalMap_later_entry_wins_witness :
  goalMap [yearGoal "g1" "First" "bg-rose-600" 1; yearGoal "g1" "Second" "bg-amber-600" 2]
    !! "g1"
  = Some (yearGoal "g1" "Second" "bg-amber-600" 2).
Proof.
  apply (proj1 (goalMap_later_entry_wins [yearGoal "g1" "First" "bg-rose-600" 1]
                  (yearGoal "g1" "Second" "bg-amber-600" 2) [] "g1")).
  intros g' Hg'. by apply elem_of_nil in Hg'.
Defined.

(** The colour class of a block is never empty.  It is the fallback
    'bg-zinc-400' when the block's goal id is absent or empty, whatever the
    goals are, and when it matches no listed goal; with distinct goal ids, a
    block whose goal is listed with a colour gets exactly that colour. *)
Theorem blockColor_resolves gs b :
  blockColor gs b <> EmptyString
  /\ (goalId b = None \/ goalId b = Some EmptyString
      \/ (forall g, g ∈ gs -> goalId b <> Some (goal_id g)) ->
      blockColor gs b = "bg-zinc-400")
  /\ (forall g, NoDup (goal_id <$> gs) -> g ∈ gs ->
        goalId b = Some (goal_id g) -> goal_id g <> EmptyString ->
        color g <> EmptyString -> blockColor gs b = color g).
Proof.
  split; [|split].
  - unfold blockColor.
    destruct (match goalId b with Some _ => _ | None => _ end) as [g|]; [|done].
    destruct (String.eqb_spec (color g) EmptyString); done.
  - unfold blockColor. intros [-> | [-> | Hno]]; [reflexivity | reflexivity |].
    destruct (goalId b) as [k|]; [|reflexivity].
    destruct (String.eqb k EmptyString); [reflexivity|].
    rewrite goalMap_lookup.
    destruct (last _) as [g|] eqn:Hl; [|reflexivity].
    apply last_Some_elem_of, list_elem_of_filter in Hl as [Hk Hin].
    destruct (Hno g Hin). by rewrite Hk.
  - intros g Hnd Hin Hb Hid Hc. unfold blockColor. rewrite Hb.
    rewrite (proj2 (String.eqb_neq _ _) Hid).
    rewrite goalMap_lookup, filter_unique_id by done. cbn.
    by rewrite (proj2 (String.eqb_neq _ _) Hc).
Qed.

Lemma blockColor_resolves_witness :
  blockColor initialGoals (sampleBlock "b1" 480 60 (Some "g-fitness")) = "bg-emerald-600"
  /\ blockColor initialGoals (sampleBlock "b2" 480 60 (Some "g-gone")) = "bg-zinc-400"
  /\ blockColor [yearGoal EmptyString "Nameless" "bg-rose-600" 1]
       (sampleBlock "b3" 480 60 (Some EmptyString)) = "bg-zinc-400".
Proof.
  destruct (blockColor_resolves initialGoals
              (sampleBlock "b1" 480 60 (Some "g-fitness"))) as (_ & _ & Hpos).
  destruct (blockColor_resolves initialGoals
              (sampleBlock "b2" 480 60 (Some "g-gone"))) as (_ & Hneg & _).
  destruct (blockColor_resolves [yearGoal EmptyString "Nameless" "bg-rose-600" 1]
              (sampleBlock "b3" 480 60 (Some EmptyString))) as (_ & Hempty & _).
  split; [|split].
  - apply (Hpos (yearGoal "g-fitness" "Fitness" "bg-emerald-600" 6)).
    + apply (bool_decide_unpack _). vm_compute. exact I.
    + unfold initialGoals. right. left.
    + reflexivity.
    + discriminate.
    + discriminate.
  - apply Hneg. right. right. intros g Hg.
    repeat (apply elem_of_cons in Hg as [->|Hg]; [discriminate|]).
    by apply elem_of_nil in Hg.
  - apply Hempty. right. left. reflexivity.
Defined.

End Colours.

(** ** The totals bar *)

Section TotalsBar.

Implicit Types (gs : list Goal) (l : list ScheduledBlock) (m : gmap string Z).

(** The entries of a list of keys, missing ones counting as zero. *)
Lemma goalMinutes_insert_other gs m (k : string) (v : Z) :
  (forall g, g ∈ gs -> goal_id g <> k) ->
  foldr (fun g acc => goalMinutes (<[k := v]> m) g + acc) 0 gs
  = foldr (fun g acc => goalMinutes m g + acc) 0 gs.
Proof.
  induction gs as [|a gs IH]; intros H; [reflexivity|]. cbn.
  rewrite IH by (intros g Hg; apply H; by right).
  unfold goalMinutes. rewrite lookup_insert_ne; [reflexivity|].
  intros Heq. by apply (H a); [left|].
Qed.

Lemma goalMinutes_insert_listed gs m g (d : Z) :
  NoDup (goal_id <$> gs) -> g ∈ gs ->
  foldr (fun g' acc => goalMinutes (<[goal_id g := default 0 (m !! goal_id g) + d]> m) g' + acc)
    0 gs
  = foldr (fun g' acc => goalMinutes m g' + acc) 0 gs + d.
Proof.
  induction gs as [|a gs IH]; intros Hnd Hin; [by apply elem_of_nil in Hin|].
  rewrite fmap_cons in Hnd. apply NoDup_cons in Hnd as [Ha Hnd]. cbn.
  destruct (decide (goal_id a = goal_id g)) as [Heq|Hne].
  - rewrite goalMinutes_insert_other.
    + unfold goalMinutes at 1. rewrite Heq, lookup_insert_eq. cbn.
      unfold goalMinutes at 2. rewrite Heq. lia.
    + intros g' Hg' Hid. apply Ha. rewrite Heq, <- Hid.
      by apply list_elem_of_fmap_2.
  - apply elem_of_cons in Hin as [->|Hin]; [done|].
    rewrite IH by done. unfold goalMinutes at 1.
    rewrite lookup_insert_ne by done. unfold goalMinutes at 2. lia.
Qed.

Lemma totalDuration_snoc l b : totalDuration (l ++ [b]) = totalDuration l + durationMin b.
Proof.
  unfold totalDuration. induction l as [|x l IH]; cbn; [lia|]. rewrite IH. lia.
Qed.

(** When the goal ids are distinct, none of them is the text 'none', and
    every block of the day is either unassigned or of a listed goal, the
    minutes on the totals bar add up to the summed duration of the day's
    blocks: nothing is lost and nothing is counted twice. *)
Theorem displayedMinutes_conserved gs l :
  NoDup (goal_id <$> gs) ->
  (forall g, g ∈ gs -> goal_id g <> "none") ->
  (forall b, b ∈ l -> goalKey b = "none" \/ exists g, g ∈ gs /\ goal_id g = goalKey b) ->
  displayedMinutes gs (totalsByGoal l) = totalDuration l.
Proof.
  intros Hnd Hnone. induction l as [|b l IH] using rev_ind; intros Hcov.
  - unfold displayedMinutes, totalsByGoal, unassignedMinutes. cbn.
    rewrite lookup_empty. cbn.
    assert (foldr (fun g acc => goalMinutes ∅ g + acc) 0 gs = 0) as ->; [|reflexivity].
    clear. induction gs as [|a gs IH]; [reflexivity|]. cbn. rewrite IH.
    unfold goalMinutes. by rewrite lookup_empty.
  - rewrite totalsByGoal_snoc, totalDuration_snoc, <- IH.
    2: { intros b' Hb'. apply Hcov, elem_of_app. by left. }
    unfold displayedMinutes, unassignedMinutes.
    destruct (Hcov b) as [Hk|(g & Hg & Hk)]; [apply elem_of_app; right; left|..].
    + rewrite Hk. rewrite goalMinutes_insert_other by done.
      rewrite lookup_insert_eq. cbn. lia.
    + rewrite <- Hk. rewrite goalMinutes_insert_listed by done.
      rewrite lookup_insert_ne by (by apply Hnone). lia.
Qed.

Lemma displayedMinutes_conserved_witness :
  displayedMinutes initialGoals
    (totalsByGoal [sampleBlock "a" 480 90 (Some "g-identity");
                   sampleBlock "b" 600 20 None;
                   sampleBlock "c" 660 60 (Some "g-fitness")])
  = totalDuration [sampleBlock "a" 480 90 (Some "g-identity");
                   sampleBlock "b" 600 20 None;
                   sampleBlock "c" 660 60 (Some "g-fitness")].
Proof.
  apply displayedMinutes_conserved.
  - apply (bool_decide_unpack _). vm_compute. exact I.
  - intros g Hg.
    repeat (apply elem_of_cons in Hg as [->|Hg]; [discriminate|]).
    by apply elem_of_nil in Hg.
  - intros b Hb.
    apply elem_of_cons in Hb as [->|Hb];
      [right; exists (yearGoal "g-identity" "Identity App" "bg-indigo-600" 20);
       split; [left|reflexivity]|].
    apply elem_of_cons in Hb as [->|Hb]; [by left|].
    apply elem_of_cons in Hb as [->|Hb];
      [right; exists (yearGoal "g-fitness" "Fitness" "bg-emerald-600" 6);
       split; [right; left|reflexivity]|].
    by apply elem_of_nil in Hb.
Defined.

End TotalsBar.

(** ** The display sort on ordered input *)

Section SortedInput.

Implicit Types (l : list ScheduledBlock).

(** Blocks that are stored in start order are displayed in their stored
    order: the sort leaves an ordered array as it is. *)
Theorem stableSort_of_sorted l :
  StronglySorted startLe l -> stableSort byStart l = l.
Proof.
  induction 1 as [|x l Hl IH Hx]; [reflexivity|].
  cbn. rewrite IH. destruct l as [|y l']; [reflexivity|]. cbn.
  apply Forall_cons in Hx as [Hxy _]. unfold startLe in Hxy. unfold byStart.
  by rewrite (proj2 (Z.leb_le _ _)) by lia.
Qed.

Lemma stableSort_of_sorted_witness :
  let l := [sampleBlock "b2" 480 30 None; sampleBlock "b1" 480 60 None;
            sampleBlock "b3" 600 30 None] in
  StronglySorted startLe l /\ stableSort byStart l = l.
Proof.
  cbn zeta.
  assert (H : StronglySorted startLe
                [sampleBlock "b2" 480 30 None; sampleBlock "b1" 480 60 None;
                 sampleBlock "b3" 600 30 None]).
  { repeat constructor; vm_compute; congruence. }
  split; [exact H | exact (stableSort_of_sorted _ H)].
Defined.

End SortedInput.

(** ** Persistence *)

Section Persistence.

Variable JSON_parse : string -> option AppState.

Implicit Types (localStorage : gmap string string) (s : AppState).

(** With nothing stored under the key, with an empty text stored, or with a
    text the parser rejects, [loadState] gives the built-in goals and
    templates and no blocks. *)
Theorem loadState_falls_back localStorage :
  localStorage !! LS_KEY = None
  \/ localStorage !! LS_KEY = Some EmptyString
  \/ (exists raw, localStorage !! LS_KEY = Some raw /\ JSON_parse raw = None) ->
  loadState JSON_parse localStorage = defaultState
  /\ blocks (loadState JSON_parse localStorage) = []
  /\ goal_id <$> goals (loadState JSON_parse localStorage)
     = ["g-identity"; "g-fitness"; "g-relationships"; "g-admin"].
Proof.
  intros H.
  assert (loadState JSON_parse localStorage = defaultState) as ->; [|done].
  unfold loadState. destruct H as [-> | [-> | (raw & -> & Hp)]]; try reflexivity.
  rewrite Hp. by destruct (String.eqb raw EmptyString).
Qed.

End Persistence.

Lemma loadState_falls_back_witness :
  loadState (fun _ => None) ∅ = defaultState.
Proof.
  apply (loadState_falls_back (fun _ => None) ∅). left. reflexivity.
Defined.
